(** * SortedSet: a sorted, duplicate-free collection (sorted_set.py)

    Shallow embedding of the Python class [SortedSet(Sequence, Set)] and of
    the standard-library pieces it is built on: [set], [sorted],
    [bisect.bisect_left], list indexing and slicing, and the mixin methods
    that [collections.abc.Set] contributes to the class ([<=], [<], [>=],
    [>], [&], [|], [-], [^], [isdisjoint]).

    Exceptions are modelled by an error monad; the element type is any type
    with Python's [==] and [<] forming a strict total order. *)

From Stdlib Require Import List ZArith Bool Arith Lia Permutation Sorted.
From Stdlib Require String DecimalString.
Import String.StringSyntax.
Delimit Scope string_scope with string.
From Equations Require Import Equations.
Import ListNotations.

(** ** Elements: a total order given by [<] and [==] *)

Class PyOrd (T : Type) : Type := {
  py_eq : T -> T -> bool;
  py_lt : T -> T -> bool;
  py_eq_spec : forall x y, py_eq x y = true <-> x = y;
  py_lt_irrefl : forall x, py_lt x x = false;
  py_lt_trans : forall x y z,
    py_lt x y = true -> py_lt y z = true -> py_lt x z = true;
  py_lt_total : forall x y,
    py_lt x y = false -> py_lt y x = false -> x = y
}.

(** Python's unbounded [int]. *)
#[export] Program Instance Z_PyOrd : PyOrd Z := {
  py_eq := Z.eqb;
  py_lt := Z.ltb
}.
Next Obligation. apply Z.eqb_eq. Qed.
Next Obligation. apply Z.ltb_irrefl. Qed.
Next Obligation. rewrite Z.ltb_lt in *. lia. Qed.
Next Obligation. rewrite Z.ltb_ge in *. lia. Qed.

(** ** Exceptions *)

Inductive exn : Type :=
| ValueError
| IndexError
| AssertionError
| AttributeError
| TypeError.

Inductive result (A : Type) : Type :=
| Ok (a : A)
| Raise (e : exn).

Arguments Ok {A} a.
Arguments Raise {A} e.

Definition bind {A B : Type} (r : result A) (k : A -> result B) : result B :=
  match r with
  | Ok a => k a
  | Raise e => Raise e
  end.

Notation "x <- c ;; k" := (bind c (fun x => k))
  (at level 61, c at next level, right associativity).

(** A comparison method answers with a boolean or with [NotImplemented]. *)
Inductive cmp : Type :=
| NotImplemented
| CBool (b : bool).

(** The index argument of [__getitem__]: an integer or a slice object. *)
Record slice : Type := Slice {
  start : option Z;
  stop : option Z;
  step : option Z
}.

Inductive subscript : Type :=
| IInt (i : Z)
| ISlice (sl : slice).

Section SortedSet.

Context {T : Type} {ord : PyOrd T}.

(** ** Built-ins used by the class *)

(** [set(items)]: the elements are added one by one, an element equal to one
    already present is dropped.  (The iteration order of a real [set] is
    unspecified; [sorted_set_order_irrelevant] below shows that the constructor
    does not depend on it.) *)
Fixpoint set_add (x : T) (s : list T) : list T :=
  match s with
  | [] => [x]
  | y :: s' => if py_eq x y then s else y :: set_add x s'
  end.

Definition py_set (items : list T) : list T :=
  fold_left (fun s x => set_add x s) items [].

(** [sorted(xs)]: a stable sort that compares with [<] only. *)
Fixpoint insort (x : T) (l : list T) : list T :=
  match l with
  | [] => [x]
  | y :: l' => if py_lt y x then y :: insort x l' else x :: l
  end.

Fixpoint sorted (xs : list T) : list T :=
  match xs with
  | [] => []
  | x :: xs' => insort x (sorted xs')
  end.

(** [a[i]] on a list, [i] an integer: negative indices count from the end. *)
Definition list_getitem (a : list T) (i : Z) : result T :=
  let n := Z.of_nat (length a) in
  let j := if (i <? 0)%Z then (i + n)%Z else i in
  if ((j <? 0) || (n <=? j))%Z then Raise IndexError
  else match nth_error a (Z.to_nat j) with
       | Some x => Ok x
       | None => Raise IndexError
       end.

(** [slice.indices(length)]: the bounds of a slice resolved against a length. *)
Definition slice_indices (sl : slice) (length : Z) : result (Z * Z * Z) :=
  let stp := match step sl with None => 1%Z | Some s => s end in
  if (stp =? 0)%Z then Raise ValueError
  else
    let lower := if (stp <? 0)%Z then (-1)%Z else 0%Z in
    let upper := if (stp <? 0)%Z then (length - 1)%Z else length in
    let adjust (b : Z) :=
      if (b <? 0)%Z then Z.max (b + length) lower else Z.min b upper in
    let sta := match start sl with
               | None => if (stp <? 0)%Z then upper else lower
               | Some b => adjust b
               end in
    let sto := match stop sl with
               | None => if (stp <? 0)%Z then lower else upper
               | Some b => adjust b
               end in
    Ok (sta, sto, stp).

(** Number of positions a resolved slice visits. *)
Definition slice_length (sta sto stp : Z) : nat :=
  if (stp <? 0)%Z
  then (if (sto <? sta)%Z then Z.to_nat ((sta - sto - 1) / (- stp) + 1) else 0)
  else (if (sta <? sto)%Z then Z.to_nat ((sto - sta - 1) / stp + 1) else 0).

(** [a[start:stop:step]] on a list: a new list. *)
Definition list_getslice (a : list T) (sl : slice) : result (list T) :=
  r <- slice_indices sl (Z.of_nat (length a)) ;;
  let '(sta, sto, stp) := r in
  Ok (flat_map
        (fun k => match nth_error a (Z.to_nat (sta + Z.of_nat k * stp)) with
                  | Some x => [x]
                  | None => []
                  end)
        (seq 0 (slice_length sta sto stp))).

(** [a == b] on lists: same length and equal elements, position by position. *)
Fixpoint list_eq (a b : list T) : bool :=
  match a, b with
  | [], [] => true
  | x :: a', y :: b' => py_eq x y && list_eq a' b'
  | _, _ => false
  end.

(** [bisect.bisect_left(a, x)]:
<<
    lo, hi = 0, len(a)
    while lo < hi:
        mid = (lo + hi) // 2
        if a[mid] < x: lo = mid + 1
        else: hi = mid
    return lo
>> *)
Equations? bisect_loop (a : list T) (x : T) (lo hi : nat) : result nat
  by wf (hi - lo) lt :=
bisect_loop a x lo hi with lt_dec lo hi := {
  | right _ := Ok lo
  | left _ with list_getitem a (Z.of_nat ((lo + hi) / 2)) := {
    | Raise e := Raise e
    | Ok y with py_lt y x := {
      | true := bisect_loop a x (S ((lo + hi) / 2)) hi
      | false := bisect_loop a x lo ((lo + hi) / 2) } } }.
Proof.
  all: change (fst (Nat.divmod (lo + hi) 1 0 1)) with ((lo + hi) / 2);
    pose proof (Nat.div_mod_eq (lo + hi) 2);
    pose proof (Nat.mod_upper_bound (lo + hi) 2); lia.
Qed.

Definition bisect_left (a : list T) (x : T) : result nat :=
  bisect_loop a x 0 (length a).

(** ** The class *)

Record SortedSet : Type := mkSortedSet { _items : list T }.

(** Values an operand can be. *)
Inductive pyval : Type :=
| VNone
| VInt (n : Z)
| VList (l : list T)
| VSortedSet (s : SortedSet).

(** [__init__(self, items=None)] *)
Definition __init__ (items : option (list T)) : SortedSet :=
  {| _items := match items with
               | Some xs => sorted (py_set xs)
               | None => []
               end |}.

Definition __len__ (self : SortedSet) : nat := length (_items self).

Definition __iter__ (self : SortedSet) : list T := _items self.

(** What a subscription evaluates to: one element, or a plain list. *)
Inductive subscripted : Type :=
| Item (x : T)
| Items (l : list T).

(** [__getitem__(self, index)]: [return self._items[index]]; the statement
    after it is never reached, so a slice comes back as a plain list. *)
Definition __getitem__ (self : SortedSet) (index : subscript)
  : result subscripted :=
  match index with
  | IInt i => x <- list_getitem (_items self) i ;; Ok (Item x)
  | ISlice sl => l <- list_getslice (_items self) sl ;; Ok (Items l)
  end.

(** [__eq__] and [__ne__]: guarded by the type check. *)
Definition __eq__ (self : SortedSet) (rhs : pyval) : cmp :=
  match rhs with
  | VSortedSet r => CBool (list_eq (_items self) (_items r))
  | _ => NotImplemented
  end.

Definition __ne__ (self : SortedSet) (rhs : pyval) : cmp :=
  match rhs with
  | VSortedSet r => CBool (negb (list_eq (_items self) (_items r)))
  | _ => NotImplemented
  end.

(** [all(self[i] < self[i + 1] for i in range(len(self) - 1))] *)
Fixpoint all_adjacent (self : SortedSet) (range : list nat) : result bool :=
  match range with
  | [] => Ok true
  | i :: range' =>
      a <- __getitem__ self (IInt (Z.of_nat i)) ;;
      b <- __getitem__ self (IInt (Z.of_nat (i + 1))) ;;
      match a, b with
      | Item x, Item y =>
          if py_lt x y then all_adjacent self range' else Ok false
      | _, _ => Raise TypeError
      end
  end.

Definition _is_unique_and_sorted (self : SortedSet) : result bool :=
  all_adjacent self (seq 0 (__len__ self - 1)).

(** [index(self, item)] *)
Definition index (self : SortedSet) (item : T) : result nat :=
  ok <- _is_unique_and_sorted self ;;
  if negb ok then Raise AssertionError
  else
    i <- bisect_left (_items self) item ;;
    if negb (i =? length (_items self))
    then y <- list_getitem (_items self) (Z.of_nat i) ;;
         if py_eq y item then Ok i else Raise ValueError
    else Raise ValueError.

(** [__contains__(self, item)]: only [ValueError] is caught. *)
Definition __contains__ (self : SortedSet) (item : T) : result bool :=
  match index self item with
  | Ok _ => Ok true
  | Raise ValueError => Ok false
  | Raise e => Raise e
  end.

(** [count(self, item)]: [int(item in self)] after the assertion. *)
Definition count (self : SortedSet) (item : T) : result Z :=
  ok <- _is_unique_and_sorted self ;;
  if negb ok then Raise AssertionError
  else b <- __contains__ self item ;; Ok (if b then 1%Z else 0%Z).

(** [__add__(self, rhs)]: reads [rhs._items], an attribute that only a
    SortedSet has. *)
Definition __add__ (self : SortedSet) (rhs : pyval) : result SortedSet :=
  match rhs with
  | VSortedSet r => Ok (__init__ (Some (_items self ++ _items r)))
  | _ => Raise AttributeError
  end.

(** [__mul__(self, rhs)]: [rhs > 0] is defined for an integer [rhs]; against
    [None], a list or a SortedSet the comparison with [0] is a [TypeError]. *)
Definition __mul__ (self : SortedSet) (rhs : pyval) : result SortedSet :=
  match rhs with
  | VInt n => Ok (if (0 <? n)%Z then self else __init__ None)
  | _ => Raise TypeError
  end.

(** [__rmul__(self, lhs)]: [return self * lhs]. *)
Definition __rmul__ (self : SortedSet) (lhs : pyval) : result SortedSet :=
  __mul__ self lhs.

(** ** Methods inherited from [collections.abc.Set]

    Both operands are SortedSets wherever the class calls them, so the
    [isinstance(other, Set)] guards of the mixins pass. *)

(** [for elem in elems: if elem not in other: return False] then
    [return True]. *)
Fixpoint all_in (other : SortedSet) (elems : list T) : result bool :=
  match elems with
  | [] => Ok true
  | e :: elems' =>
      b <- __contains__ other e ;;
      if b then all_in other elems' else Ok false
  end.

Definition Set__le__ (self other : SortedSet) : result bool :=
  if __len__ other <? __len__ self then Ok false
  else all_in other (__iter__ self).

Definition Set__lt__ (self other : SortedSet) : result bool :=
  if __len__ self <? __len__ other then Set__le__ self other else Ok false.

Definition Set__ge__ (self other : SortedSet) : result bool :=
  if __len__ self <? __len__ other then Ok false
  else all_in self (__iter__ other).

Definition Set__gt__ (self other : SortedSet) : result bool :=
  if __len__ other <? __len__ self then Set__ge__ self other else Ok false.

(** The generator [(value for value in values if test(value))]. *)
Fixpoint select (test : T -> result bool) (values : list T)
  : result (list T) :=
  match values with
  | [] => Ok []
  | v :: values' =>
      b <- test v ;;
      rest <- select test values' ;;
      Ok (if b then v :: rest else rest)
  end.

(** [_from_iterable(cls, it)]: [return cls(it)]. *)
Definition _from_iterable (it : list T) : SortedSet := __init__ (Some it).

Definition Set__and__ (self other : SortedSet) : result SortedSet :=
  it <- select (fun value => __contains__ self value) (__iter__ other) ;;
  Ok (_from_iterable it).

Definition Set__or__ (self other : SortedSet) : result SortedSet :=
  Ok (_from_iterable (__iter__ self ++ __iter__ other)).

Definition Set__sub__ (self other : SortedSet) : result SortedSet :=
  it <- select (fun value => b <- __contains__ other value ;; Ok (negb b))
               (__iter__ self) ;;
  Ok (_from_iterable it).

Definition Set__xor__ (self other : SortedSet) : result SortedSet :=
  a <- Set__sub__ self other ;;
  b <- Set__sub__ other self ;;
  Set__or__ a b.

(** [isdisjoint(self, other)]: [other] is any iterable. *)
Fixpoint isdisjoint (self : SortedSet) (other : list T) : result bool :=
  match other with
  | [] => Ok true
  | value :: other' =>
      b <- __contains__ self value ;;
      if b then Ok false else isdisjoint self other'
  end.

(** ** The named set methods of the class *)

Definition issubset (self : SortedSet) (iterable : list T) : result bool :=
  Set__le__ self (__init__ (Some iterable)).

Definition issuperset (self : SortedSet) (iterable : list T) : result bool :=
  Set__ge__ self (__init__ (Some iterable)).

Definition intersection (self : SortedSet) (iterable : list T)
  : result SortedSet :=
  Set__and__ self (__init__ (Some iterable)).

Definition union (self : SortedSet) (iterable : list T) : result SortedSet :=
  Set__or__ self (__init__ (Some iterable)).

Definition symmetric_difference (self : SortedSet) (iterable : list T)
  : result SortedSet :=
  Set__xor__ self (__init__ (Some iterable)).

Definition difference (self : SortedSet) (iterable : list T)
  : result SortedSet :=
  Set__sub__ self (__init__ (Some iterable)).

(** ** Methods inherited from [collections.abc.Sequence]

    [__reversed__(self)]:
    [for i in reversed(range(len(self))): yield self[i]]. *)
Fixpoint yield_subscripts (self : SortedSet) (positions : list nat)
  : result (list subscripted) :=
  match positions with
  | [] => Ok []
  | i :: positions' =>
      v <- __getitem__ self (IInt (Z.of_nat i)) ;;
      vs <- yield_subscripts self positions' ;;
      Ok (v :: vs)
  end.

Definition __reversed__ (self : SortedSet) : result (list subscripted) :=
  yield_subscripts self (rev (seq 0 (__len__ self))).

(** ** Textual representation

    [repr] of an element is the element type's own: [repr_item]. *)

(** [repr] of a list: the elements' [repr] between brackets, separated by
    a comma and a space. *)
Definition repr_list (repr_item : T -> String.string) (l : list T)
  : String.string :=
  String.append "["%string
    (String.append (String.concat ", "%string (map repr_item l)) "]"%string).

(** [__repr__(self)]:
    ["SortedSet({})".format(repr(self._items) if self._items else '')]. *)
Definition __repr__ (repr_item : T -> String.string) (self : SortedSet)
  : String.string :=
  String.append "SortedSet("%string
    (String.append
       (match _items self with
        | [] => ""%string
        | _ :: _ => repr_list repr_item (_items self)
        end)
       ")"%string).

(** ** Operators

    [a == b] asks the left operand first, then the right operand with the
    operands swapped; when both answer [NotImplemented] the objects are
    compared by identity, and two objects of different types are never the
    same object. *)

Definition builtin_eq (a b : pyval) : cmp :=
  match a, b with
  | VNone, VNone => CBool true
  | VInt n, VInt m => CBool (n =? m)%Z
  | VList l, VList l' => CBool (list_eq l l')
  | _, _ => NotImplemented
  end.

Definition type_eq (a b : pyval) : cmp :=
  match a with
  | VSortedSet s => __eq__ s b
  | _ => builtin_eq a b
  end.

Definition type_ne (a b : pyval) : cmp :=
  match a with
  | VSortedSet s => __ne__ s b
  | _ => match builtin_eq a b with
         | CBool r => CBool (negb r)
         | NotImplemented => NotImplemented
         end
  end.

Definition op_eq (a b : pyval) : result bool :=
  match type_eq a b with
  | CBool r => Ok r
  | NotImplemented =>
      match type_eq b a with
      | CBool r => Ok r
      | NotImplemented => Ok false
      end
  end.

Definition op_ne (a b : pyval) : result bool :=
  match type_ne a b with
  | CBool r => Ok r
  | NotImplemented =>
      match type_ne b a with
      | CBool r => Ok r
      | NotImplemented => Ok true
      end
  end.







(** [a + b]: a SortedSet on the left answers with [__add__]; the class has
    no [__radd__]. *)
Definition op_add (a b : pyval) : result pyval :=
  match a, b with
  | VSortedSet s, _ => r <- __add__ s b ;; Ok (VSortedSet r)
  | VInt n, VInt m => Ok (VInt (n + m))
  | VList l, VList l' => Ok (VList (l ++ l'))
  | _, _ => Raise TypeError
  end.

(** [a * b]: a SortedSet on the left answers with [__mul__]; any other left
    operand cannot multiply a SortedSet itself, so the SortedSet on the right
    answers with [__rmul__]. *)
Definition op_mul (a b : pyval) : result pyval :=
  match a, b with
  | VSortedSet s, _ => r <- __mul__ s b ;; Ok (VSortedSet r)
  | _, VSortedSet s => r <- __rmul__ s a ;; Ok (VSortedSet r)
  | VInt n, VInt m => Ok (VInt (n * m))
  | VList l, VInt n => Ok (VList (concat (repeat l (Z.to_nat n))))
  | VInt n, VList l => Ok (VList (concat (repeat l (Z.to_nat n))))
  | _, _ => Raise TypeError
  end.

(** ** SortedSets a client can obtain

    From the constructor, or as the result of an operation of the class on
    SortedSets obtained before. *)
Inductive reachable : SortedSet -> Prop :=
| R_init : forall items, reachable (__init__ items)
| R_add : forall s t r,
    reachable s -> reachable t -> __add__ s (VSortedSet t) = Ok r ->
    reachable r
| R_mul : forall s n r,
    reachable s -> __mul__ s (VInt n) = Ok r -> reachable r
| R_rmul : forall s n r,
    reachable s -> __rmul__ s (VInt n) = Ok r -> reachable r
| R_and : forall s t r,
    reachable s -> reachable t -> Set__and__ s t = Ok r -> reachable r
| R_or : forall s t r,
    reachable s -> reachable t -> Set__or__ s t = Ok r -> reachable r
| R_sub : forall s t r,
    reachable s -> reachable t -> Set__sub__ s t = Ok r -> reachable r
| R_xor : forall s t r,
    reachable s -> reachable t -> Set__xor__ s t = Ok r -> reachable r
| R_intersection : forall s iterable r,
    reachable s -> intersection s iterable = Ok r -> reachable r
| R_union : forall s iterable r,
    reachable s -> union s iterable = Ok r -> reachable r
| R_symmetric_difference : forall s iterable r,
    reachable s -> symmetric_difference s iterable = Ok r -> reachable r
| R_difference : forall s iterable r,
    reachable s -> difference s iterable = Ok r -> reachable r.

(** Invariant I1 in the words of the data model. *)
Definition strictly_ascending (items : list T) : Prop :=
  forall i x y,
    nth_error items i = Some x -> nth_error items (S i) = Some y ->
    py_lt x y = true.

(** [x < y] as a relation. *)
Definition ltR (x y : T) : Prop := py_lt x y = true.

(** The bound of a slice in the words of the interface description: a
    negative bound counts from the end, and the outcome is clamped to the
    valid range [0 .. n]. *)
Definition clamp (n b : Z) : Z :=
  Z.max 0 (Z.min n (if (b <? 0)%Z then (b + n)%Z else b)).


(** [s + s + ... + s], [n] times, starting from the empty SortedSet. *)
Fixpoint add_times (s : SortedSet) (n : nat) : result SortedSet :=
  match n with
  | 0 => Ok (__init__ None)
  | S n' => acc <- add_times s n' ;; __add__ acc (VSortedSet s)
  end.

(** * Properties *)

(** ** The order on elements *)

Lemma py_eq_refl (x : T) : py_eq x x = true.
Proof. now apply py_eq_spec. Qed.

Lemma py_eq_false (x y : T) : py_eq x y = false <-> x <> y.
Proof.
  split.
  - intros E ->. rewrite py_eq_refl in E. discriminate.
  - intros N. destruct (py_eq x y) eqn:E; [|reflexivity].
    apply py_eq_spec in E. contradiction.
Qed.

Lemma ltR_neq (x y : T) : ltR x y -> x <> y.
Proof. unfold ltR. intros L ->. rewrite py_lt_irrefl in L. discriminate. Qed.

Lemma ltR_asym (x y : T) : ltR x y -> py_lt y x = false.
Proof.
  unfold ltR. intros L. destruct (py_lt y x) eqn:E; [|reflexivity].
  pose proof (py_lt_trans _ _ _ L E) as C.
  rewrite py_lt_irrefl in C. discriminate.
Qed.

Lemma not_lt_neq_gt (x y : T) : py_lt y x = false -> x <> y -> ltR x y.
Proof.
  unfold ltR. intros L N. destruct (py_lt x y) eqn:E; [reflexivity|].
  exfalso. apply N. now apply py_lt_total.
Qed.

(** ** [set] and [sorted] *)

Lemma In_set_add (x z : T) (s : list T) :
  In z (set_add x s) <-> z = x \/ In z s.
Proof.
  induction s as [|y s IH]; simpl.
  - intuition.
  - destruct (py_eq x y) eqn:E.
    + apply py_eq_spec in E. subst. simpl. intuition.
    + simpl. rewrite IH. intuition.
Qed.

Lemma NoDup_set_add (x : T) (s : list T) : NoDup s -> NoDup (set_add x s).
Proof.
  induction s as [|y s IH]; simpl; intros ND.
  - constructor; [intros []|constructor].
  - destruct (py_eq x y) eqn:E; [assumption|].
    apply py_eq_false in E. inversion ND; subst.
    constructor; [|auto].
    rewrite In_set_add. intros [->|I]; [now apply E|contradiction].
Qed.

Lemma fold_set_add (items acc : list T) :
  NoDup acc ->
  NoDup (fold_left (fun s x => set_add x s) items acc) /\
  forall z, In z (fold_left (fun s x => set_add x s) items acc)
            <-> In z items \/ In z acc.
Proof.
  revert acc. induction items as [|x items IH]; simpl; intros acc ND.
  - split; [assumption|]. intuition.
  - destruct (IH (set_add x acc) (NoDup_set_add x acc ND)) as [N I].
    split; [assumption|]. intros z. rewrite I, In_set_add. intuition.
Qed.

Lemma NoDup_py_set (items : list T) : NoDup (py_set items).
Proof. apply fold_set_add. constructor. Qed.

Lemma In_py_set (items : list T) (z : T) : In z (py_set items) <-> In z items.
Proof.
  unfold py_set.
  destruct (fold_set_add items [] (NoDup_nil T)) as [_ I].
  rewrite I. simpl. intuition.
Qed.

Lemma In_insort (x z : T) (l : list T) :
  In z (insort x l) <-> z = x \/ In z l.
Proof.
  induction l as [|y l IH]; simpl.
  - intuition.
  - destruct (py_lt y x); simpl; [rewrite IH|]; intuition.
Qed.

Lemma In_sorted (xs : list T) (z : T) : In z (sorted xs) <-> In z xs.
Proof.
  induction xs as [|x xs IH]; simpl; [reflexivity|].
  rewrite In_insort, IH. intuition.
Qed.

Lemma insort_perm (x : T) (l : list T) : Permutation (x :: l) (insort x l).
Proof.
  induction l as [|y l IH]; simpl; [reflexivity|].
  destruct (py_lt y x); [|reflexivity].
  rewrite perm_swap. now apply perm_skip.
Qed.

Lemma sorted_perm (xs : list T) : Permutation xs (sorted xs).
Proof.
  induction xs as [|x xs IH]; simpl; [constructor|].
  rewrite <- insort_perm. now apply perm_skip.
Qed.

Lemma insort_strongly (x : T) (l : list T) :
  ~ In x l -> StronglySorted ltR l -> StronglySorted ltR (insort x l).
Proof.
  induction l as [|y l IH]; simpl; intros NI SS.
  - constructor; constructor.
  - apply StronglySorted_inv in SS. destruct SS as [SS F].
    destruct (py_lt y x) eqn:E.
    + constructor; [apply IH; tauto|].
      rewrite Forall_forall in *. intros z I.
      apply In_insort in I. destruct I as [->|I]; [exact E|auto].
    + assert (L : ltR x y) by (apply not_lt_neq_gt; [assumption|intros ->; apply NI; now left]).
      constructor; [constructor; assumption|].
      constructor; [assumption|].
      rewrite Forall_forall in *. intros z I.
      exact (py_lt_trans _ _ _ L (F z I)).
Qed.

Lemma sorted_strongly (xs : list T) :
  NoDup xs -> StronglySorted ltR (sorted xs).
Proof.
  induction xs as [|x xs IH]; simpl; intros ND.
  - constructor.
  - inversion ND; subst. apply insort_strongly; [|auto].
    now rewrite In_sorted.
Qed.

(** A strictly ascending list is determined by its elements. *)
Lemma strongly_unique (l1 l2 : list T) :
  StronglySorted ltR l1 -> StronglySorted ltR l2 ->
  (forall z, In z l1 <-> In z l2) -> l1 = l2.
Proof.
  revert l2. induction l1 as [|x l1 IH]; intros l2 S1 S2 E.
  - destruct l2 as [|y l2]; [reflexivity|].
    exfalso. apply (E y). now left.
  - destruct l2 as [|y l2]; [exfalso; apply (E x); now left|].
    apply StronglySorted_inv in S1. destruct S1 as [S1 F1].
    apply StronglySorted_inv in S2. destruct S2 as [S2 F2].
    rewrite Forall_forall in F1, F2.
    assert (x = y) as ->.
    { destruct (proj1 (E x) (or_introl eq_refl)) as [->|Ix]; [reflexivity|].
      destruct (proj2 (E y) (or_introl eq_refl)) as [->|Iy]; [reflexivity|].
      pose proof (ltR_asym _ _ (F1 y Iy)) as A.
      pose proof (F2 x Ix) as B. unfold ltR in B. congruence. }
    f_equal. apply IH; [assumption|assumption|].
    intros z. split; intros I.
    + destruct (proj1 (E z) (or_intror I)) as [->|]; [|assumption].
      exfalso. exact (ltR_neq _ _ (F1 _ I) eq_refl).
    + destruct (proj2 (E z) (or_intror I)) as [->|]; [|assumption].
      exfalso. exact (ltR_neq _ _ (F2 _ I) eq_refl).
Qed.

Lemma strongly_NoDup (l : list T) : StronglySorted ltR l -> NoDup l.
Proof.
  induction 1 as [|x l SS IH F]; constructor; [|assumption].
  intros I. rewrite Forall_forall in F. exact (ltR_neq _ _ (F x I) eq_refl).
Qed.

(** The order in which a [set] hands its elements to [sorted] is immaterial. *)
Lemma sorted_set_order_irrelevant (s s' : list T) :
  NoDup s -> Permutation s s' -> sorted s = sorted s'.
Proof.
  intros ND P. apply strongly_unique.
  - now apply sorted_strongly.
  - apply sorted_strongly. eapply Permutation_NoDup; eassumption.
  - intros z. rewrite !In_sorted.
    split; apply Permutation_in; [assumption|now symmetry].
Qed.

Lemma init_strongly (items : option (list T)) :
  StronglySorted ltR (_items (__init__ items)).
Proof.
  destruct items as [xs|]; simpl.
  - apply sorted_strongly, NoDup_py_set.
  - constructor.
Qed.

Lemma In_init (xs : list T) (z : T) :
  In z (_items (__init__ (Some xs))) <-> In z xs.
Proof. simpl. now rewrite In_sorted, In_py_set. Qed.

Lemma init_ext (xs ys : list T) :
  (forall z, In z xs <-> In z ys) -> __init__ (Some xs) = __init__ (Some ys).
Proof.
  intros E. unfold __init__. f_equal.
  apply strongly_unique; try (apply sorted_strongly, NoDup_py_set).
  intros z. rewrite !In_sorted, !In_py_set. apply E.
Qed.

(** ** Indexing *)

Lemma list_getitem_nat (a : list T) (i : nat) (x : T) :
  nth_error a i = Some x -> list_getitem a (Z.of_nat i) = Ok x.
Proof.
  intros E.
  assert (L : i < length a) by (apply nth_error_Some; congruence).
  unfold list_getitem.
  destruct (Z.ltb_spec (Z.of_nat i) 0); [lia|].
  destruct (Z.ltb_spec (Z.of_nat i) 0); [lia|].
  destruct (Z.leb_spec (Z.of_nat (length a)) (Z.of_nat i)); [lia|].
  simpl. now rewrite Nat2Z.id, E.
Qed.

Lemma list_getitem_forward (a : list T) (i : Z) :
  (0 <= i < Z.of_nat (length a))%Z ->
  exists x, nth_error a (Z.to_nat i) = Some x /\ list_getitem a i = Ok x.
Proof.
  intros R.
  destruct (nth_error a (Z.to_nat i)) as [x|] eqn:E.
  - exists x. split; [reflexivity|].
    rewrite <- (Z2Nat.id i) by lia. now apply list_getitem_nat.
  - apply nth_error_None in E. lia.
Qed.

Lemma list_getitem_backward (a : list T) (i : Z) :
  (- Z.of_nat (length a) <= i < 0)%Z ->
  exists x, nth_error a (Z.to_nat (Z.of_nat (length a) + i)) = Some x /\
            list_getitem a i = Ok x.
Proof.
  intros R.
  destruct (nth_error a (Z.to_nat (Z.of_nat (length a) + i))) as [x|] eqn:E.
  - exists x. split; [reflexivity|].
    unfold list_getitem.
    destruct (Z.ltb_spec i 0); [|lia].
    destruct (Z.ltb_spec (i + Z.of_nat (length a)) 0); [lia|].
    destruct (Z.leb_spec (Z.of_nat (length a)) (i + Z.of_nat (length a)));
      [lia|].
    simpl. now rewrite Z.add_comm, E.
  - apply nth_error_None in E. lia.
Qed.

Lemma list_getitem_outside (a : list T) (i : Z) :
  (i >= Z.of_nat (length a) \/ i < - Z.of_nat (length a))%Z <->
  list_getitem a i = Raise IndexError.
Proof.
  split.
  - intros R. unfold list_getitem.
    destruct (Z.ltb_spec i 0).
    + destruct (Z.ltb_spec (i + Z.of_nat (length a)) 0); [reflexivity|lia].
    + destruct (Z.ltb_spec i 0); [lia|].
      destruct (Z.leb_spec (Z.of_nat (length a)) i); [reflexivity|lia].
  - intros E.
    destruct (Z_lt_ge_dec i (- Z.of_nat (length a))); [now right|].
    destruct (Z_lt_ge_dec i (Z.of_nat (length a))); [|now left].
    exfalso. destruct (Z_lt_ge_dec i 0).
    + destruct (list_getitem_backward a i) as (x & _ & E'); [lia|congruence].
    + destruct (list_getitem_forward a i) as (x & _ & E'); [lia|congruence].
Qed.

(** ** The sortedness check *)

Lemma strongly_nth (l : list T) :
  StronglySorted ltR l ->
  forall i j x y, i < j ->
    nth_error l i = Some x -> nth_error l j = Some y -> ltR x y.
Proof.
  induction 1 as [|a l SS IH F]; intros i j x y L Ei Ej.
  - destruct i; discriminate.
  - destruct j as [|j]; [lia|]. simpl in Ej.
    destruct i as [|i]; simpl in Ei.
    + injection Ei as <-. rewrite Forall_forall in F.
      apply F. eapply nth_error_In; eassumption.
    + apply (IH i j); [lia|assumption|assumption].
Qed.

Lemma strongly_ascending (l : list T) :
  StronglySorted ltR l <-> strictly_ascending l.
Proof.
  split.
  - intros SS i x y Ei Ej. apply (strongly_nth l SS i (S i)); auto.
  - intros A. apply Sorted_StronglySorted.
    { intros x y z. apply py_lt_trans. }
    induction l as [|x l IH]; [constructor|].
    constructor.
    + apply IH. intros i a b Ei Ej. apply (A (S i)); assumption.
    + destruct l as [|y l]; constructor. apply (A 0); reflexivity.
Qed.

Lemma all_adjacent_spec (self : SortedSet) (range : list nat) :
  (forall i, In i range -> S i < length (_items self)) ->
  exists b, all_adjacent self range = Ok b /\
    (b = true <->
     forall i x y, In i range ->
       nth_error (_items self) i = Some x ->
       nth_error (_items self) (S i) = Some y -> ltR x y).
Proof.
  induction range as [|i range IH]; intros V.
  - exists true. split; [reflexivity|]. split; [intros _ ? ? ? []|reflexivity].
  - destruct IH as (b & E & Sb); [intros; apply V; now right|].
    assert (L : S i < length (_items self)) by (apply V; now left).
    destruct (nth_error (_items self) i) as [x|] eqn:Ex;
      [|apply nth_error_None in Ex; lia].
    destruct (nth_error (_items self) (S i)) as [y|] eqn:Ey;
      [|apply nth_error_None in Ey; lia].
    cbn [all_adjacent]. unfold __getitem__.
    rewrite (list_getitem_nat _ _ _ Ex). cbn [bind].
    replace (i + 1) with (S i) by lia.
    rewrite (list_getitem_nat _ _ _ Ey). cbn [bind].
    destruct (py_lt x y) eqn:Lxy.
    + exists b. split; [assumption|]. rewrite Sb. split.
      * intros A j u v [<-|I] Eu Ev; [|exact (A j u v I Eu Ev)].
        unfold ltR. congruence.
      * intros A j u v I. apply A. now right.
    + exists false. split; [reflexivity|]. split; [discriminate|].
      intros A. specialize (A i x y (or_introl eq_refl) Ex Ey).
      unfold ltR in A. congruence.
Qed.

(** The assertion of [index] and [count] tests exactly invariant I1, and
    never raises. *)
Lemma is_unique_and_sorted_spec (self : SortedSet) :
  exists b, _is_unique_and_sorted self = Ok b /\
            (b = true <-> strictly_ascending (_items self)).
Proof.
  unfold _is_unique_and_sorted, __len__.
  destruct (all_adjacent_spec self (seq 0 (length (_items self) - 1)))
    as (b & E & Sb).
  { intros i I. apply in_seq in I. lia. }
  exists b. split; [assumption|]. rewrite Sb. split.
  - intros A i x y Ex Ey. apply (A i); [|assumption|assumption].
    apply in_seq. assert (S i < length (_items self))
      by (apply nth_error_Some; congruence). lia.
  - intros A i x y _. apply A.
Qed.

Lemma is_unique_and_sorted_true (self : SortedSet) :
  StronglySorted ltR (_items self) -> _is_unique_and_sorted self = Ok true.
Proof.
  intros SS. destruct (is_unique_and_sorted_spec self) as (b & E & Sb).
  rewrite E. f_equal. apply Sb. now apply strongly_ascending.
Qed.

(** ** Binary search *)

Lemma list_getitem_nat_inv (a : list T) (i : nat) (r : result T) :
  i < length a -> list_getitem a (Z.of_nat i) = r ->
  exists y, nth_error a i = Some y /\ r = Ok y.
Proof.
  intros L E. destruct (nth_error a i) as [y|] eqn:N.
  - exists y. split; [reflexivity|].
    now rewrite (list_getitem_nat _ _ _ N) in E.
  - apply nth_error_None in N. lia.
Qed.

Lemma mid_bounds (lo hi : nat) : lo < hi -> lo <= (lo + hi) / 2 < hi.
Proof.
  intros L. pose proof (Nat.div_mod_eq (lo + hi) 2).
  pose proof (Nat.mod_upper_bound (lo + hi) 2). lia.
Qed.

(** The loop keeps everything left of [lo] below [x] and nothing from [hi]
    on below [x]; it ends with the two bounds joined. *)
Lemma bisect_loop_spec (a : list T) (x : T) (lo hi : nat) :
  StronglySorted ltR a ->
  lo <= hi <= length a ->
  (forall i y, i < lo -> nth_error a i = Some y -> ltR y x) ->
  (forall i y, hi <= i -> nth_error a i = Some y -> py_lt y x = false) ->
  exists p, bisect_loop a x lo hi = Ok p /\ p <= length a /\
    (forall i y, i < p -> nth_error a i = Some y -> ltR y x) /\
    (forall i y, p <= i -> nth_error a i = Some y -> py_lt y x = false).
Proof.
  intros SS. funelim (bisect_loop a x lo hi); intros B Lo Hi;
    try match goal with L : ?lo < ?hi |- _ =>
      pose proof (mid_bounds _ _ L) as M end;
    try match goal with G : list_getitem _ _ = _ |- _ =>
      apply list_getitem_nat_inv in G; [destruct G as (m & Em & Rm)|lia] end.
  - exists lo. repeat split; [lia|assumption|].
    intros i y Li. apply Hi. lia.
  - discriminate.
  - injection Rm as <-.
    match goal with IH : _ -> _ -> _ -> _ -> ex _ |- _ => apply IH end;
      [assumption|lia| |assumption].
    intros i z Li Ez. destruct (Nat.eq_dec i ((lo + hi) / 2)) as [->|N].
    + unfold ltR. congruence.
    + apply py_lt_trans with (y := y); [|assumption].
      apply (strongly_nth a SS i ((lo + hi) / 2)); [lia|auto|auto].
  - injection Rm as <-.
    match goal with IH : _ -> _ -> _ -> _ -> ex _ |- _ => apply IH end;
      [assumption|lia|assumption|].
    intros i z Li Ez. destruct (Nat.eq_dec i ((lo + hi) / 2)) as [->|N].
    + congruence.
    + destruct (py_lt z x) eqn:Lz; [|reflexivity].
      assert (ltR y z)
        by (apply (strongly_nth a SS ((lo + hi) / 2) i);
            [lia|auto|auto]).
      assert (py_lt y x = true) by (eapply py_lt_trans; eassumption).
      congruence.
Qed.

Lemma bisect_left_spec (a : list T) (x : T) :
  StronglySorted ltR a ->
  exists p, bisect_left a x = Ok p /\ p <= length a /\
    (forall i y, i < p -> nth_error a i = Some y -> ltR y x) /\
    (forall i y, p <= i -> nth_error a i = Some y -> py_lt y x = false).
Proof.
  intros SS. apply bisect_loop_spec; [assumption|lia| |].
  - intros i y L. lia.
  - intros i y L E. assert (i < length a) by (apply nth_error_Some; congruence).
    lia.
Qed.

(** ** [index], [__contains__], [count] on a set that satisfies I1 *)

Lemma index_found (self : SortedSet) (item : T) (k : nat) :
  StronglySorted ltR (_items self) ->
  nth_error (_items self) k = Some item -> index self item = Ok k.
Proof.
  intros SS Ek. unfold index.
  rewrite (is_unique_and_sorted_true self SS). cbn [bind negb].
  destruct (bisect_left_spec _ item SS) as (p & E & Lp & Below & Above).
  rewrite E. cbn [bind].
  assert (Lk : k < length (_items self)) by (apply nth_error_Some; congruence).
  assert (p = k) as ->.
  { destruct (Nat.lt_trichotomy k p) as [Lt|[Eq|Gt]]; [|auto|].
    - pose proof (Below k item Lt Ek) as C. unfold ltR in C.
      rewrite py_lt_irrefl in C. discriminate.
    - destruct (nth_error (_items self) p) as [y|] eqn:Ep;
        [|apply nth_error_None in Ep; lia].
      pose proof (strongly_nth _ SS _ _ _ _ Gt Ep Ek) as C.
      pose proof (Above p y (le_n p) Ep). unfold ltR in C. congruence. }
  destruct (Nat.eqb_spec k (length (_items self))); [lia|]. cbn [negb].
  rewrite (list_getitem_nat _ _ _ Ek). cbn [bind].
  now rewrite py_eq_refl.
Qed.

Lemma index_absent (self : SortedSet) (item : T) :
  StronglySorted ltR (_items self) ->
  ~ In item (_items self) -> index self item = Raise ValueError.
Proof.
  intros SS NI. unfold index.
  rewrite (is_unique_and_sorted_true self SS). cbn [bind negb].
  destruct (bisect_left_spec _ item SS) as (p & E & Lp & _).
  rewrite E. cbn [bind].
  destruct (Nat.eqb_spec p (length (_items self))); [reflexivity|].
  cbn [negb].
  destruct (list_getitem_nat_inv (_items self) p _ ltac:(lia) eq_refl)
    as (y & Ey & ->).
  cbn [bind]. destruct (py_eq y item) eqn:Q; [|reflexivity].
  apply py_eq_spec in Q. subst. exfalso. apply NI.
  eapply nth_error_In; eassumption.
Qed.

Lemma In_dec_items (item : T) (l : list T) : {In item l} + {~ In item l}.
Proof.
  apply in_dec. intros x y. destruct (py_eq x y) eqn:E.
  - left. now apply py_eq_spec.
  - right. now apply py_eq_false.
Defined.

Lemma contains_spec (self : SortedSet) (item : T) :
  StronglySorted ltR (_items self) ->
  (In item (_items self) /\ __contains__ self item = Ok true) \/
  (~ In item (_items self) /\ __contains__ self item = Ok false).
Proof.
  intros SS. unfold __contains__.
  destruct (In_dec_items item (_items self)) as [I|NI].
  - left. split; [assumption|].
    destruct (In_nth_error _ _ I) as [k Ek].
    now rewrite (index_found self item k SS Ek).
  - right. split; [assumption|]. now rewrite (index_absent self item SS NI).
Qed.

Lemma contains_true (self : SortedSet) (item : T) :
  StronglySorted ltR (_items self) ->
  (__contains__ self item = Ok true <-> In item (_items self)).
Proof.
  intros SS. destruct (contains_spec self item SS) as [[I E]|[NI E]];
    rewrite E; split; intros; try assumption; try reflexivity;
    try discriminate; contradiction.
Qed.

Lemma contains_false (self : SortedSet) (item : T) :
  StronglySorted ltR (_items self) ->
  (__contains__ self item = Ok false <-> ~ In item (_items self)).
Proof.
  intros SS. destruct (contains_spec self item SS) as [[I E]|[NI E]];
    rewrite E; split; intros; try assumption; try reflexivity;
    try discriminate; contradiction.
Qed.

(** ** The mixin loops over a set that satisfies I1 *)

Lemma bind_Ok {A B : Type} (c : result A) (k : A -> result B) (b : B) :
  bind c k = Ok b -> exists a, c = Ok a /\ k a = Ok b.
Proof. destruct c as [a|e]; simpl; [eauto|discriminate]. Qed.

Lemma all_in_spec (other : SortedSet) (elems : list T) :
  StronglySorted ltR (_items other) ->
  exists b, all_in other elems = Ok b /\
            (b = true <-> incl elems (_items other)).
Proof.
  intros SS. induction elems as [|e elems (b & E & Sb)].
  - exists true. split; [reflexivity|]. split; [intros _ ? []|reflexivity].
  - cbn [all_in].
    destruct (contains_spec other e SS) as [[I C]|[NI C]];
      rewrite C; cbn [bind].
    + exists b. split; [assumption|]. rewrite Sb. split.
      * intros A z [<-|Iz]; auto.
      * intros A z Iz. apply A. now right.
    + exists false. split; [reflexivity|]. split; [discriminate|].
      intros A. exfalso. apply NI, A. now left.
Qed.

Lemma select_in_spec (self : SortedSet) (values : list T) :
  StronglySorted ltR (_items self) ->
  exists it, select (fun value => __contains__ self value) values = Ok it /\
    forall z, In z it <-> In z values /\ In z (_items self).
Proof.
  intros SS. induction values as [|v values (it & E & Si)].
  - exists []. split; [reflexivity|]. simpl. tauto.
  - cbn [select]. rewrite E.
    destruct (contains_spec self v SS) as [[I C]|[NI C]];
      rewrite C; cbn [bind].
    + exists (v :: it). split; [reflexivity|]. intros z. simpl. rewrite Si.
      split; [intros [<-|[? ?]]; auto|tauto].
    + exists it. split; [reflexivity|]. intros z. simpl. rewrite Si.
      split; [tauto|]. intros [[<-|?] ?]; [contradiction|tauto].
Qed.

Lemma select_not_in_spec (other : SortedSet) (values : list T) :
  StronglySorted ltR (_items other) ->
  exists it,
    select (fun value => b <- __contains__ other value ;; Ok (negb b)) values
    = Ok it /\
    forall z, In z it <-> In z values /\ ~ In z (_items other).
Proof.
  intros SS. induction values as [|v values (it & E & Si)].
  - exists []. split; [reflexivity|]. simpl. tauto.
  - cbn [select]. rewrite E.
    destruct (contains_spec other v SS) as [[I C]|[NI C]];
      rewrite C; cbn [bind negb].
    + exists it. split; [reflexivity|]. intros z. simpl. rewrite Si.
      split; [tauto|]. intros [[<-|?] ?]; [contradiction|tauto].
    + exists (v :: it). split; [reflexivity|]. intros z. simpl. rewrite Si.
      split; [intros [<-|[? ?]]; auto|tauto].
Qed.

Lemma isdisjoint_spec (self : SortedSet) (other : list T) :
  StronglySorted ltR (_items self) ->
  exists b, isdisjoint self other = Ok b /\
            (b = true <-> forall v, In v other -> ~ In v (_items self)).
Proof.
  intros SS. induction other as [|v other (b & E & Sb)].
  - exists true. split; [reflexivity|]. split; [intros _ ? []|reflexivity].
  - cbn [isdisjoint].
    destruct (contains_spec self v SS) as [[I C]|[NI C]];
      rewrite C; cbn [bind].
    + exists false. split; [reflexivity|]. split; [discriminate|].
      intros A. exfalso. apply (A v); [now left|assumption].
    + exists b. split; [assumption|]. rewrite Sb. split.
      * intros A z [<-|Iz]; auto.
      * intros A z Iz. apply A. now right.
Qed.

(** ** The set operators *)

Lemma and_spec (self other : SortedSet) :
  StronglySorted ltR (_items self) ->
  exists r, Set__and__ self other = Ok r /\
    forall z, In z (_items r) <-> In z (_items self) /\ In z (_items other).
Proof.
  intros SS. unfold Set__and__, __iter__.
  destruct (select_in_spec self (_items other) SS) as (it & E & Si).
  rewrite E. cbn [bind]. eexists. split; [reflexivity|].
  intros z. unfold _from_iterable. rewrite In_init, Si. tauto.
Qed.

Lemma or_spec (self other : SortedSet) :
  exists r, Set__or__ self other = Ok r /\
    forall z, In z (_items r) <-> In z (_items self) \/ In z (_items other).
Proof.
  unfold Set__or__, __iter__. eexists. split; [reflexivity|].
  intros z. unfold _from_iterable. rewrite In_init. apply in_app_iff.
Qed.

Lemma sub_spec (self other : SortedSet) :
  StronglySorted ltR (_items other) ->
  exists r, Set__sub__ self other = Ok r /\
    forall z, In z (_items r) <-> In z (_items self) /\ ~ In z (_items other).
Proof.
  intros SS. unfold Set__sub__, __iter__.
  destruct (select_not_in_spec other (_items self) SS) as (it & E & Si).
  rewrite E. cbn [bind]. eexists. split; [reflexivity|].
  intros z. unfold _from_iterable. now rewrite In_init, Si.
Qed.

Lemma xor_spec (self other : SortedSet) :
  StronglySorted ltR (_items self) -> StronglySorted ltR (_items other) ->
  exists r, Set__xor__ self other = Ok r /\
    forall z, In z (_items r) <->
      (In z (_items self) /\ ~ In z (_items other)) \/
      (In z (_items other) /\ ~ In z (_items self)).
Proof.
  intros S1 S2. unfold Set__xor__.
  destruct (sub_spec self other S2) as (a & Ea & Sa).
  destruct (sub_spec other self S1) as (b & Eb & Sb).
  rewrite Ea, Eb. cbn [bind].
  destruct (or_spec a b) as (r & Er & Sr).
  exists r. split; [assumption|]. intros z. now rewrite Sr, Sa, Sb.
Qed.

(** Every result of a set operator comes out of the constructor. *)
Lemma from_constructor_strongly (r : SortedSet) (c : result (list T)) :
  (it <- c ;; Ok (_from_iterable it)) = Ok r ->
  StronglySorted ltR (_items r).
Proof.
  intros E. apply bind_Ok in E. destruct E as (it & _ & E).
  injection E as <-. apply init_strongly.
Qed.

Lemma or_strongly (s t r : SortedSet) :
  Set__or__ s t = Ok r -> StronglySorted ltR (_items r).
Proof. intros E. injection E as <-. apply init_strongly. Qed.

Lemma xor_strongly (s t r : SortedSet) :
  Set__xor__ s t = Ok r -> StronglySorted ltR (_items r).
Proof.
  intros E. unfold Set__xor__ in E.
  apply bind_Ok in E. destruct E as (a & _ & E).
  apply bind_Ok in E. destruct E as (b & _ & E).
  eapply or_strongly; eassumption.
Qed.

Lemma mul_strongly (s r : SortedSet) (n : Z) :
  StronglySorted ltR (_items s) -> __mul__ s (VInt n) = Ok r ->
  StronglySorted ltR (_items r).
Proof.
  intros SS E. injection E as <-. destruct (0 <? n)%Z; [assumption|].
  apply init_strongly.
Qed.

Lemma reachable_strongly (s : SortedSet) :
  reachable s -> StronglySorted ltR (_items s).
Proof.
  induction 1 as
    [ items | s t r _ _ _ _ E | s n r _ IH E | s n r _ IH E
    | s t r _ _ _ _ E | s t r _ _ _ _ E | s t r _ _ _ _ E | s t r _ _ _ _ E
    | s it r _ _ E | s it r _ _ E | s it r _ _ E | s it r _ _ E ].
  - apply init_strongly.
  - injection E as <-. apply init_strongly.
  - eapply mul_strongly; eassumption.
  - eapply mul_strongly; eassumption.
  - eapply from_constructor_strongly, E.
  - eapply or_strongly, E.
  - eapply from_constructor_strongly, E.
  - eapply xor_strongly, E.
  - eapply from_constructor_strongly, E.
  - eapply or_strongly, E.
  - eapply xor_strongly, E.
  - eapply from_constructor_strongly, E.
Qed.

(** ** Equality of lists *)

Lemma list_eq_spec (a b : list T) : list_eq a b = true <-> a = b.
Proof.
  revert b. induction a as [|x a IH]; intros [|y b]; simpl;
    try (split; [discriminate|discriminate]); [tauto|].
  rewrite andb_true_iff, py_eq_spec, IH.
  split; [intros [-> ->]; reflexivity|intros E; injection E; auto].
Qed.

Lemma list_eq_refl (a : list T) : list_eq a a = true.
Proof. now apply list_eq_spec. Qed.


(** ** Subset and superset *)

Lemma le_spec (self other : SortedSet) :
  StronglySorted ltR (_items self) -> StronglySorted ltR (_items other) ->
  exists b, Set__le__ self other = Ok b /\
            (b = true <-> incl (_items self) (_items other)).
Proof.
  intros S1 S2. unfold Set__le__, __len__, __iter__.
  destruct (Nat.ltb_spec (length (_items other)) (length (_items self))).
  - exists false. split; [reflexivity|]. split; [discriminate|].
    intros I. apply NoDup_incl_length in I; [lia|].
    now apply strongly_NoDup.
  - now apply all_in_spec.
Qed.

Lemma ge_spec (self other : SortedSet) :
  StronglySorted ltR (_items self) -> StronglySorted ltR (_items other) ->
  exists b, Set__ge__ self other = Ok b /\
            (b = true <-> incl (_items other) (_items self)).
Proof.
  intros S1 S2. unfold Set__ge__, __len__, __iter__.
  destruct (Nat.ltb_spec (length (_items self)) (length (_items other))).
  - exists false. split; [reflexivity|]. split; [discriminate|].
    intros I. apply NoDup_incl_length in I; [lia|].
    now apply strongly_NoDup.
  - now apply all_in_spec.
Qed.

Lemma incl_same_length_eq (l1 l2 : list T) :
  StronglySorted ltR l1 -> StronglySorted ltR l2 ->
  incl l1 l2 -> length l2 <= length l1 -> l1 = l2.
Proof.
  intros S1 S2 I L. apply strongly_unique; [assumption|assumption|].
  intros z. split; [apply I|].
  apply NoDup_length_incl; [now apply strongly_NoDup|assumption|assumption].
Qed.

(** [<] is [<=] without equality. *)
Lemma lt_spec (self other : SortedSet) :
  StronglySorted ltR (_items self) -> StronglySorted ltR (_items other) ->
  exists lt le,
    Set__lt__ self other = Ok lt /\ Set__le__ self other = Ok le /\
    lt = le && negb (list_eq (_items self) (_items other)).
Proof.
  intros S1 S2. destruct (le_spec self other S1 S2) as (le & E & Sl).
  unfold Set__lt__, __len__.
  destruct (Nat.ltb_spec (length (_items self)) (length (_items other)))
    as [L|L].
  - exists le, le. repeat split; try assumption.
    destruct (list_eq (_items self) (_items other)) eqn:Q.
    + apply list_eq_spec in Q. rewrite Q in L. lia.
    + now rewrite andb_true_r.
  - exists false, le. repeat split; try assumption.
    destruct le; [|reflexivity].
    rewrite (incl_same_length_eq _ _ S1 S2) at 1;
      [|now apply Sl|assumption].
    now rewrite list_eq_refl.
Qed.

Lemma gt_spec (self other : SortedSet) :
  StronglySorted ltR (_items self) -> StronglySorted ltR (_items other) ->
  exists gt ge,
    Set__gt__ self other = Ok gt /\ Set__ge__ self other = Ok ge /\
    gt = ge && negb (list_eq (_items self) (_items other)).
Proof.
  intros S1 S2. destruct (ge_spec self other S1 S2) as (ge & E & Sg).
  unfold Set__gt__, __len__.
  destruct (Nat.ltb_spec (length (_items other)) (length (_items self)))
    as [L|L].
  - exists ge, ge. repeat split; try assumption.
    destruct (list_eq (_items self) (_items other)) eqn:Q.
    + apply list_eq_spec in Q. rewrite Q in L. lia.
    + now rewrite andb_true_r.
  - exists false, ge. repeat split; try assumption.
    destruct ge; [|reflexivity].
    rewrite <- (incl_same_length_eq _ _ S2 S1) at 1;
      [|now apply Sg|assumption].
    now rewrite list_eq_refl.
Qed.

(** ** Slices with the default step *)

Lemma flat_map_nth_firstn (l : list T) (c : nat) :
  c <= length l ->
  flat_map (fun k => match nth_error l k with Some x => [x] | None => [] end)
           (seq 0 c)
  = firstn c l.
Proof.
  revert c. induction l as [|x l IH]; intros [|c] L; simpl in *;
    try reflexivity; try lia.
  f_equal. rewrite <- seq_shift, flat_map_concat_map, map_map.
  rewrite <- flat_map_concat_map. apply IH. lia.
Qed.

Lemma slice_indices_default_step (b e : option Z) (n : Z) :
  (0 <= n)%Z ->
  slice_indices (Slice b e None) n
  = Ok (match b with None => 0%Z | Some v => clamp n v end,
        match e with None => n | Some v => clamp n v end, 1%Z).
Proof.
  intros N. unfold slice_indices, clamp. cbn.
  repeat f_equal.
  - destruct b as [v|]; [|reflexivity]. destruct (Z.ltb_spec v 0); lia.
  - destruct e as [v|]; [|reflexivity]. destruct (Z.ltb_spec v 0); lia.
Qed.

Lemma clamp_range (n b : Z) : (0 <= n -> 0 <= clamp n b <= n)%Z.
Proof. unfold clamp. lia. Qed.

(** A bound inside the range is kept, one beyond an end is moved to that
    end, a negative one counts from the end. *)
Lemma clamp_cases (n b : Z) :
  (0 <= n)%Z ->
  ((0 <= b <= n)%Z -> clamp n b = b) /\
  ((n < b)%Z -> clamp n b = n) /\
  ((- n <= b < 0)%Z -> clamp n b = (n + b)%Z) /\
  ((b < - n)%Z -> clamp n b = 0%Z).
Proof.
  intros N. unfold clamp.
  split; [|split; [|split]]; intros R; destruct (Z.ltb_spec b 0); lia.
Qed.

Lemma list_getslice_default_step (a : list T) (b e : option Z) :
  let n := Z.of_nat (length a) in
  let from := match b with None => 0%Z | Some v => clamp n v end in
  let to := match e with None => n | Some v => clamp n v end in
  list_getslice a (Slice b e None)
  = Ok (firstn (Z.to_nat (to - from)) (skipn (Z.to_nat from) a)).
Proof.
  intros n from to. unfold list_getslice.
  rewrite slice_indices_default_step by lia. cbn [bind].
  fold n from to. f_equal.
  assert (Rf : (0 <= from <= n)%Z).
  { subst from. destruct b; [apply clamp_range|]; lia. }
  assert (Rt : (0 <= to <= n)%Z).
  { subst to. destruct e; [apply clamp_range|]; lia. }
  assert (slice_length from to 1 = Z.to_nat (to - from)) as ->.
  { unfold slice_length. cbn. destruct (Z.ltb_spec from to).
    - rewrite Z.div_1_r. f_equal. lia.
    - lia. }
  rewrite <- flat_map_nth_firstn by (rewrite length_skipn; lia).
  apply flat_map_ext. intros k. rewrite nth_error_skipn.
  replace (Z.to_nat (from + Z.of_nat k * 1)) with (Z.to_nat from + k) by lia.
  reflexivity.
Qed.

(** * Specification theorems *)

(** C1.  Every SortedSet obtained from the constructor (with any finite
    input, or with no argument) or returned by an operation of the class
    stores a strictly ascending sequence: for all valid [i],
    [items[i] < items[i+1]]; in particular it has no duplicates, and the
    class's own check [_is_unique_and_sorted] answers [True]. *)
Theorem reachable_strictly_ascending (s : SortedSet) :
  reachable s ->
  strictly_ascending (_items s) /\
  NoDup (_items s) /\
  _is_unique_and_sorted s = Ok true.
Proof.
  intros R. apply reachable_strongly in R. split; [|split].
  - now apply strongly_ascending.
  - now apply strongly_NoDup.
  - now apply is_unique_and_sorted_true.
Qed.

(** C2 (amended).  [S + other] succeeds when [other] is a SortedSet, and
    then yields a SortedSet satisfying I1 whose elements are exactly those
    of [S] or of [other]; with any operand that is not a SortedSet (a plain
    list among them) it raises [AttributeError]. *)
Theorem add_needs_sortedset (S : SortedSet) (other : pyval) :
  match other with
  | VSortedSet R =>
      exists r, op_add (VSortedSet S) other = Ok (VSortedSet r) /\
        strictly_ascending (_items r) /\
        forall x, In x (_items r) <-> In x (_items S) \/ In x (_items R)
  | _ => op_add (VSortedSet S) other = Raise AttributeError
  end.
Proof.
  destruct other as [|n|l|R]; try reflexivity.
  eexists. split; [reflexivity|]. split.
  - apply strongly_ascending, init_strongly.
  - intros x. rewrite In_init. apply in_app_iff.
Qed.


(** C4.  On a SortedSet [S]: [index] returns the position [i] with
    [items[i] == x] when [x] is present and raises [ValueError] exactly when
    [x] is absent; [__contains__] answers [True] iff [x] is stored and never
    lets the [ValueError] through; [count] is 1 when [x] is present and 0
    otherwise. *)
Theorem index_contains_count_spec (S : SortedSet) (x : T) :
  reachable S ->
  (forall i, index S x = Ok i <-> nth_error (_items S) i = Some x) /\
  (index S x = Raise ValueError <-> ~ In x (_items S)) /\
  ((In x (_items S) /\ __contains__ S x = Ok true) \/
   (~ In x (_items S) /\ __contains__ S x = Ok false)) /\
  ((In x (_items S) /\ count S x = Ok 1%Z) \/
   (~ In x (_items S) /\ count S x = Ok 0%Z)).
Proof.
  intros R. apply reachable_strongly in R.
  assert (F : forall k, nth_error (_items S) k = Some x -> index S x = Ok k)
    by (intros k; now apply index_found).
  pose proof (index_absent S x R) as A.
  pose proof (contains_spec S x R) as C.
  repeat split.
  - intros E. destruct (In_dec_items x (_items S)) as [I|NI].
    + destruct (In_nth_error _ _ I) as [k Ek].
      rewrite (F k Ek) in E. congruence.
    + rewrite (A NI) in E. discriminate.
  - apply F.
  - intros E I. destruct (In_nth_error _ _ I) as [k Ek].
    rewrite (F k Ek) in E. discriminate.
  - exact A.
  - exact C.
  - unfold count. rewrite (is_unique_and_sorted_true S R). cbn [bind negb].
    destruct C as [[I ->]|[NI ->]]; [left|right]; now split.
Qed.

(** C5.  Positional access with an integer [i] on a set of length [n]:
    the element at position [i] when [0 <= i < n], the element at position
    [n + i] when [-n <= i < 0], and [IndexError] exactly when [i >= n] or
    [i < -n]. *)
Theorem getitem_int_spec (S : SortedSet) (i : Z) :
  let n := Z.of_nat (__len__ S) in
  ((0 <= i < n)%Z ->
   exists x, nth_error (_items S) (Z.to_nat i) = Some x /\
             __getitem__ S (IInt i) = Ok (Item x)) /\
  ((- n <= i < 0)%Z ->
   exists x, nth_error (_items S) (Z.to_nat (n + i)) = Some x /\
             __getitem__ S (IInt i) = Ok (Item x)) /\
  ((i >= n \/ i < - n)%Z <-> __getitem__ S (IInt i) = Raise IndexError).
Proof.
  intros n. unfold __getitem__. repeat split.
  - intros R. destruct (list_getitem_forward (_items S) i R) as (x & E & G).
    exists x. now rewrite G.
  - intros R. destruct (list_getitem_backward (_items S) i R) as (x & E & G).
    exists x. now rewrite G.
  - intros R. apply list_getitem_outside in R. now rewrite R.
  - intros E. apply list_getitem_outside.
    destruct (list_getitem (_items S) i) as [x|e]; [discriminate|].
    simpl in E. congruence.
Qed.

(** C6.  [S * n] is [S] itself for [n > 0] and the empty SortedSet for
    [n <= 0]; and [n * S] gives the same as [S * n]. *)
Theorem mul_rmul_spec (S : SortedSet) (n : Z) :
  ((n > 0)%Z ->
   op_mul (VSortedSet S) (VInt n) = Ok (VSortedSet S) /\
   op_eq (VSortedSet S) (VSortedSet S) = Ok true) /\
  ((n <= 0)%Z ->
   op_mul (VSortedSet S) (VInt n) = Ok (VSortedSet (__init__ None)) /\
   _items (__init__ None) = []) /\
  op_mul (VInt n) (VSortedSet S) = op_mul (VSortedSet S) (VInt n).
Proof.
  split; [|split].
  - intros P. split.
    + simpl. destruct (Z.ltb_spec 0 n); [reflexivity|lia].
    + unfold op_eq. simpl. now rewrite list_eq_refl.
  - intros P. split; [|reflexivity].
    simpl. destruct (Z.ltb_spec 0 n); [lia|reflexivity].
  - reflexivity.
Qed.

(** C7.  Membership in the results of the named set methods, for a
    SortedSet [S], an iterable [other] and an element [x]: union is "in [S]
    or in [other]", intersection "in both", difference "in [S] and not in
    [other]", symmetric difference "in exactly one"; and [isdisjoint] is
    [True] iff the intersection is empty.  None of them raises. *)
Theorem set_algebra_membership (S : SortedSet) (other : list T) (x : T) :
  reachable S ->
  (exists U, union S other = Ok U /\
     (__contains__ U x = Ok true <->
      __contains__ S x = Ok true \/ In x other)) /\
  (exists I, intersection S other = Ok I /\
     (__contains__ I x = Ok true <->
      __contains__ S x = Ok true /\ In x other)) /\
  (exists D, difference S other = Ok D /\
     (__contains__ D x = Ok true <->
      __contains__ S x = Ok true /\ ~ In x other)) /\
  (exists X, symmetric_difference S other = Ok X /\
     (__contains__ X x = Ok true <->
      (__contains__ S x = Ok true /\ ~ In x other) \/
      (__contains__ S x = Ok false /\ In x other))) /\
  (exists b I, isdisjoint S other = Ok b /\ intersection S other = Ok I /\
     (b = true <-> __len__ I = 0)).
Proof.
  intros R. apply reachable_strongly in R.
  pose proof (init_strongly (Some other)) as R'.
  pose proof (contains_true S x R) as CS.
  pose proof (contains_false S x R) as CF.
  assert (IO : forall z, In z (_items (__init__ (Some other))) <-> In z other)
    by (intros z; apply In_init).
  split; [|split; [|split; [|split]]].
  - destruct (or_spec S (__init__ (Some other))) as (U & E & SU).
    exists U. split; [assumption|].
    rewrite (contains_true U x (or_strongly _ _ _ E)), SU, CS, IO. tauto.
  - destruct (and_spec S (__init__ (Some other)) R) as (I & E & SI).
    exists I. split; [assumption|].
    rewrite (contains_true I x (from_constructor_strongly _ _ E)), SI, CS, IO.
    tauto.
  - destruct (sub_spec S (__init__ (Some other)) R') as (D & E & SD).
    exists D. split; [assumption|].
    rewrite (contains_true D x (from_constructor_strongly _ _ E)), SD, CS, IO.
    tauto.
  - destruct (xor_spec S (__init__ (Some other)) R R') as (X & E & SX).
    exists X. split; [assumption|].
    rewrite (contains_true X x (xor_strongly _ _ _ E)), SX, CS, CF, IO.
    tauto.
  - destruct (isdisjoint_spec S other R) as (b & E & Sb).
    destruct (and_spec S (__init__ (Some other)) R) as (I & EI & SI).
    exists b, I. split; [assumption|]. split; [assumption|].
    rewrite Sb. unfold __len__. rewrite length_zero_iff_nil. split.
    + intros A. destruct (_items I) as [|z l] eqn:Q; [reflexivity|].
      exfalso. destruct (proj1 (SI z) (or_introl eq_refl)) as [Iz Io].
      apply (A z); [now apply IO|assumption].
    + intros Q v Iv Is. rewrite Q in SI. apply (SI v).
      split; [assumption|now apply IO].
Qed.

(** C8.  [issubset] is [True] iff every element of [S] is in [other],
    [issuperset] iff every element of [other] is in [S]; both hold between
    a set and itself; and between SortedSets [<] is [<=] together with
    [!=], and [>] is [>=] together with [!=].  None of them raises. *)
Theorem subset_superset_spec (S : SortedSet) (other : list T) :
  reachable S ->
  (exists b, issubset S other = Ok b /\
     (b = true <-> forall x, In x (_items S) -> In x other)) /\
  (exists b, issuperset S other = Ok b /\
     (b = true <-> forall x, In x other -> In x (_items S))) /\
  issubset S (__iter__ S) = Ok true /\
  issuperset S (__iter__ S) = Ok true /\
  (forall R, reachable R ->
     exists lt le ne,
       Set__lt__ S R = Ok lt /\ Set__le__ S R = Ok le /\
       op_ne (VSortedSet S) (VSortedSet R) = Ok ne /\ lt = le && ne) /\
  (forall R, reachable R ->
     exists gt ge ne,
       Set__gt__ S R = Ok gt /\ Set__ge__ S R = Ok ge /\
       op_ne (VSortedSet S) (VSortedSet R) = Ok ne /\ gt = ge && ne).
Proof.
  intros R. apply reachable_strongly in R.
  assert (Sub : forall it, exists b, issubset S it = Ok b /\
            (b = true <-> forall x, In x (_items S) -> In x it)).
  { intros it. unfold issubset.
    destruct (le_spec S (__init__ (Some it)) R (init_strongly _))
      as (b & E & Sb).
    exists b. split; [assumption|]. rewrite Sb. unfold incl.
    split; intros A z Iz.
    - apply (proj1 (In_init it z)), A, Iz.
    - apply (proj2 (In_init it z)), A, Iz. }
  assert (Sup : forall it, exists b, issuperset S it = Ok b /\
            (b = true <-> forall x, In x it -> In x (_items S))).
  { intros it. unfold issuperset.
    destruct (ge_spec S (__init__ (Some it)) R (init_strongly _))
      as (b & E & Sb).
    exists b. split; [assumption|]. rewrite Sb. unfold incl.
    split; intros A z Iz.
    - apply A, (proj2 (In_init it z)), Iz.
    - apply A, (proj1 (In_init it z)), Iz. }
  split; [apply Sub|]. split; [apply Sup|].
  split; [|split; [|split]].
  - destruct (Sub (__iter__ S)) as (b & E & Sb). rewrite E. f_equal.
    apply Sb. auto.
  - destruct (Sup (__iter__ S)) as (b & E & Sb). rewrite E. f_equal.
    apply Sb. auto.
  - intros R0 HR. apply reachable_strongly in HR.
    destruct (lt_spec S R0 R HR) as (lt & le & E1 & E2 & E3).
    exists lt, le. eexists. repeat split; eassumption.
  - intros R0 HR. apply reachable_strongly in HR.
    destruct (gt_spec S R0 R HR) as (gt & ge & E1 & E2 & E3).
    exists gt, ge. eexists. repeat split; eassumption.
Qed.

(** C9.  Subscripting with a slice [start:stop] gives a plain list, not a
    SortedSet, and never raises: the bounds default to 0 and to the length,
    a bound out of range is clamped, and the list holds the elements at the
    positions from the start bound (inclusive) to the stop bound
    (exclusive). *)
Theorem getitem_slice_spec (S : SortedSet) (b e : option Z) :
  let n := Z.of_nat (__len__ S) in
  let from := match b with None => 0%Z | Some v => clamp n v end in
  let to := match e with None => n | Some v => clamp n v end in
  exists l,
    __getitem__ S (ISlice (Slice b e None)) = Ok (Items l) /\
    l = firstn (Z.to_nat (to - from)) (skipn (Z.to_nat from) (_items S)) /\
    forall k, nth_error l k =
              if (Z.of_nat k <? to - from)%Z
              then nth_error (_items S) (Z.to_nat from + k)
              else None.
Proof.
  intros n from to. eexists. split; [|split; [reflexivity|]].
  - unfold __getitem__. rewrite list_getslice_default_step. reflexivity.
  - intros k. fold n from to. rewrite nth_error_firstn, nth_error_skipn.
    destruct (Nat.ltb_spec k (Z.to_nat (to - from)));
      destruct (Z.ltb_spec (Z.of_nat k) (to - from)); try reflexivity; lia.
Qed.

(** C10.  Concatenation of SortedSets commutes: [S + R] and [R + S] are the
    same SortedSet, the one holding the elements of either operand, and
    they compare equal under [==]. *)
Theorem concatenation_commutes (S R : SortedSet) :
  op_add (VSortedSet S) (VSortedSet R) = op_add (VSortedSet R) (VSortedSet S) /\
  exists r r',
    op_add (VSortedSet S) (VSortedSet R) = Ok (VSortedSet r) /\
    op_add (VSortedSet R) (VSortedSet S) = Ok (VSortedSet r') /\
    (forall x, In x (_items r) <-> In x (_items S) \/ In x (_items R)) /\
    op_eq (VSortedSet r) (VSortedSet r') = Ok true.
Proof.
  assert (E : __init__ (Some (_items S ++ _items R))
              = __init__ (Some (_items R ++ _items S))).
  { apply init_ext. intros z. rewrite !in_app_iff. tauto. }
  split.
  - simpl. now rewrite E.
  - do 2 eexists. split; [reflexivity|]. split; [reflexivity|]. split.
    + intros x. rewrite In_init. apply in_app_iff.
    + rewrite E. unfold op_eq. simpl. now rewrite list_eq_refl.
Qed.

(** * Further properties of the class *)

(** ** Construction *)

(** A strictly ascending list goes through [sorted(set(...))] unchanged. *)
Lemma sorted_set_fixpoint (l : list T) :
  StronglySorted ltR l -> sorted (py_set l) = l.
Proof.
  intros SS. apply strongly_unique; [|assumption|].
  - apply sorted_strongly, NoDup_py_set.
  - intros z. now rewrite In_sorted, In_py_set.
Qed.

Lemma init_items_fixpoint (s : SortedSet) :
  StronglySorted ltR (_items s) -> __init__ (Some (_items s)) = s.
Proof.
  intros SS. destruct s as [l]. unfold __init__. simpl in *.
  f_equal. now apply sorted_set_fixpoint.
Qed.

(** Two sets satisfying I1 with the same elements are the same set. *)
Lemma same_elements_eq (r s : SortedSet) :
  StronglySorted ltR (_items r) -> StronglySorted ltR (_items s) ->
  (forall z, In z (_items r) <-> In z (_items s)) -> r = s.
Proof.
  intros Sr Ss E. destruct r as [a], s as [b]. simpl in *.
  f_equal. now apply strongly_unique.
Qed.

(** X1.  Building a SortedSet from the iteration of a SortedSet gives that
    SortedSet back. *)
Theorem init_from_iteration_roundtrip (S : SortedSet) :
  reachable S -> __init__ (Some (__iter__ S)) = S.
Proof.
  intros R. apply init_items_fixpoint. now apply reachable_strongly.
Qed.

(** X2.  The constructor depends only on which elements the input holds:
    inputs with the same elements, in any order and with any repetition,
    build the same SortedSet. *)
Theorem init_ignores_order_and_duplicates (xs ys : list T) :
  (forall z, In z xs <-> In z ys) ->
  __init__ (Some xs) = __init__ (Some ys).
Proof.
  intros E. unfold __init__. f_equal.
  apply strongly_unique.
  - apply sorted_strongly, NoDup_py_set.
  - apply sorted_strongly, NoDup_py_set.
  - intros z. rewrite !In_sorted, !In_py_set. apply E.
Qed.

(** X3.  The length of a constructed set never exceeds the length of the
    input, and equals it exactly when the input has no duplicates; without
    an argument the length is 0. *)
Theorem len_counts_distinct (xs : list T) :
  __len__ (__init__ None) = 0 /\
  __len__ (__init__ (Some xs)) <= length xs /\
  (__len__ (__init__ (Some xs)) = length xs <-> NoDup xs).
Proof.
  assert (L : __len__ (__init__ (Some xs)) = length (py_set xs)).
  { unfold __len__. simpl. symmetry.
    apply Permutation_length, sorted_perm. }
  assert (I1 : incl (py_set xs) xs) by (intros z; apply In_py_set).
  assert (I2 : incl xs (py_set xs)) by (intros z; apply In_py_set).
  pose proof (NoDup_py_set xs) as N.
  pose proof (NoDup_incl_length N I1) as Le.
  split; [reflexivity|]. rewrite L. split; [assumption|]. split.
  - intros E. apply (NoDup_incl_NoDup N); [lia|assumption].
  - intros Nx. pose proof (NoDup_incl_length Nx I2). lia.
Qed.

(** X4.  Membership after construction: [x in SortedSet(xs)] is [True]
    exactly for the elements of [xs] and [False] for every other value;
    nothing is in [SortedSet()]. *)
Theorem contains_after_init (xs : list T) (x : T) :
  (__contains__ (__init__ (Some xs)) x = Ok true <-> In x xs) /\
  (__contains__ (__init__ (Some xs)) x = Ok false <-> ~ In x xs) /\
  __contains__ (__init__ None) x = Ok false.
Proof.
  pose proof (init_strongly (Some xs)) as SS.
  split; [|split].
  - rewrite (contains_true _ x SS). apply In_init.
  - rewrite (contains_false _ x SS). now rewrite In_init.
  - apply contains_false; [apply init_strongly|]. intros [].
Qed.

(** ** The assertion *)

(** X5.  On any stored sequence, reachable or not, [_is_unique_and_sorted]
    returns without raising, and returns [True] exactly when the sequence is
    strictly ascending. *)
Theorem is_unique_and_sorted_decides (S : SortedSet) :
  exists b, _is_unique_and_sorted S = Ok b /\
            (b = true <-> strictly_ascending (_items S)).
Proof.
  unfold _is_unique_and_sorted, __len__.
  destruct (all_adjacent_spec S (seq 0 (length (_items S) - 1)))
    as (b & E & Sb).
  { intros i I. apply in_seq in I. clear - I. lia. }
  exists b. split; [exact E|]. rewrite Sb. split.
  - intros A i x y Ex Ey. apply (A i); [|assumption|assumption].
    apply in_seq.
    assert (L : Datatypes.S i < length (_items S))
      by (apply nth_error_Some; congruence).
    clear - L. lia.
  - intros A i x y _. apply A.
Qed.

Lemma is_unique_and_sorted_false (self : SortedSet) :
  ~ strictly_ascending (_items self) -> _is_unique_and_sorted self = Ok false.
Proof.
  intros N. destruct (is_unique_and_sorted_spec self) as (b & E & Sb).
  rewrite E. destruct b; [|reflexivity]. exfalso. now apply N, Sb.
Qed.

Lemma index_outcome (self : SortedSet) (item : T) :
  StronglySorted ltR (_items self) ->
  (exists k, nth_error (_items self) k = Some item /\
             index self item = Ok k) \/
  (~ In item (_items self) /\ index self item = Raise ValueError).
Proof.
  intros SS. destruct (In_dec_items item (_items self)) as [I|NI].
  - left. destruct (In_nth_error _ _ I) as [k Ek].
    exists k. split; [assumption|now apply index_found].
  - right. split; [assumption|now apply index_absent].
Qed.

(** X6.  [index], [in] and [count] raise [AssertionError] exactly when the
    stored sequence is not strictly ascending; [in] does not swallow it. *)
Theorem assertion_fails_iff_unsorted (S : SortedSet) (x : T) :
  (index S x = Raise AssertionError <-> ~ strictly_ascending (_items S)) /\
  (__contains__ S x = Raise AssertionError <->
   ~ strictly_ascending (_items S)) /\
  (count S x = Raise AssertionError <-> ~ strictly_ascending (_items S)).
Proof.
  assert (Bad : ~ strictly_ascending (_items S) ->
                index S x = Raise AssertionError /\
                __contains__ S x = Raise AssertionError /\
                count S x = Raise AssertionError).
  { intros N. pose proof (is_unique_and_sorted_false S N) as E.
    unfold count, __contains__, index. rewrite E. now repeat split. }
  assert (Good : strictly_ascending (_items S) ->
                 index S x <> Raise AssertionError /\
                 __contains__ S x <> Raise AssertionError /\
                 count S x <> Raise AssertionError).
  { intros A. apply strongly_ascending in A.
    unfold count. rewrite (is_unique_and_sorted_true S A). cbn [bind negb].
    destruct (contains_spec S x A) as [[_ C]|[_ C]]; rewrite C.
    - destruct (index_outcome S x A) as [(k & _ & E)|[_ E]];
        rewrite E; repeat split; discriminate.
    - destruct (index_outcome S x A) as [(k & _ & E)|[_ E]];
        rewrite E; repeat split; discriminate. }
  repeat split; intros E; try (now apply Bad);
    intros A; apply Good in A; tauto.
Qed.

(** ** Positions *)

Lemma index_Ok_nth (self : SortedSet) (item : T) (i : nat) :
  StronglySorted ltR (_items self) ->
  index self item = Ok i -> nth_error (_items self) i = Some item.
Proof.
  intros SS E. destruct (index_outcome self item SS) as [(k & Ek & F)|[_ F]];
    rewrite F in E; [|discriminate].
  injection E as <-. assumption.
Qed.

Lemma filter_rank (f : T -> bool) (a : list T) (p : nat) :
  (forall i y, i < p -> nth_error a i = Some y -> f y = true) ->
  (forall i y, p <= i -> nth_error a i = Some y -> f y = false) ->
  p <= length a -> length (filter f a) = p.
Proof.
  revert p. induction a as [|y a IH]; intros p Lo Hi L; simpl in *.
  - lia.
  - destruct p as [|p].
    + rewrite (Hi 0 y (le_n 0) eq_refl). apply IH; [|  |lia].
      * intros i z Li. lia.
      * intros i z _ E. apply (Hi (S i)); [lia|assumption].
    + rewrite (Lo 0 y (Nat.lt_0_succ p) eq_refl). simpl. f_equal.
      apply IH; [| |lia].
      * intros i z Li E. apply (Lo (S i)); [lia|assumption].
      * intros i z Li E. apply (Hi (S i)); [lia|assumption].
Qed.

(** X7.  The position [index] returns for [x] is the number of stored
    elements smaller than [x]. *)
Theorem index_is_rank (S : SortedSet) (x : T) (i : nat) :
  reachable S -> index S x = Ok i ->
  i = length (filter (fun y => py_lt y x) (_items S)).
Proof.
  intros R E. apply reachable_strongly in R.
  pose proof (index_Ok_nth S x i R E) as N. symmetry.
  apply filter_rank.
  - intros k y Lk Ek. exact (strongly_nth _ R k i y x Lk Ek N).
  - intros k y Lk Ek. destruct (Nat.eq_dec k i) as [->|D].
    + assert (y = x) as -> by congruence. apply py_lt_irrefl.
    + apply ltR_asym.
      apply (strongly_nth _ R i k x y); [lia|assumption|assumption].
  - apply Nat.lt_le_incl, nth_error_Some. congruence.
Qed.

Lemma list_getitem_Ok_nth (a : list T) (k : Z) (x : T) :
  list_getitem a k = Ok x ->
  exists i, nth_error a i = Some x /\
            (Z.of_nat i = k \/ Z.of_nat i = (k + Z.of_nat (length a))%Z).
Proof.
  intros E.
  destruct (Z_lt_ge_dec k (- Z.of_nat (length a))) as [L1|L1].
  { rewrite (proj1 (list_getitem_outside a k)) in E; [discriminate|lia]. }
  destruct (Z_lt_ge_dec k (Z.of_nat (length a))) as [L2|L2].
  2: { rewrite (proj1 (list_getitem_outside a k)) in E; [discriminate|lia]. }
  destruct (Z_lt_ge_dec k 0) as [L3|L3].
  - destruct (list_getitem_backward a k) as (y & N & G); [lia|].
    exists (Z.to_nat (Z.of_nat (length a) + k)).
    split; [congruence|]. right. lia.
  - destruct (list_getitem_forward a k) as (y & N & G); [lia|].
    exists (Z.to_nat k). split; [congruence|]. left. lia.
Qed.

(** X8.  Positions and elements invert each other: when [S[k]] is [x], with
    [k] counted from either end, [index] returns the forward position of
    [x]; and [S[index(x)]] is [x]. *)
Theorem getitem_index_roundtrip (S : SortedSet) :
  reachable S ->
  (forall k x, __getitem__ S (IInt k) = Ok (Item x) ->
     exists i, index S x = Ok i /\
       (Z.of_nat i = k \/ Z.of_nat i = (k + Z.of_nat (__len__ S))%Z)) /\
  (forall x i, index S x = Ok i ->
     __getitem__ S (IInt (Z.of_nat i)) = Ok (Item x)).
Proof.
  intros R. apply reachable_strongly in R. split.
  - intros k x E. unfold __getitem__ in E.
    apply bind_Ok in E. destruct E as (y & G & E). injection E as ->.
    destruct (list_getitem_Ok_nth _ _ _ G) as (i & N & P).
    exists i. split; [now apply index_found|exact P].
  - intros x i E. unfold __getitem__.
    now rewrite (list_getitem_nat _ _ _ (index_Ok_nth S x i R E)).
Qed.

(** X9.  [index] preserves the order: for stored [x] and [y],
    [x < y] iff [index(x) < index(y)]. *)
Theorem index_order_preserving (S : SortedSet) (x y : T) (i j : nat) :
  reachable S -> index S x = Ok i -> index S y = Ok j ->
  (py_lt x y = true <-> i < j).
Proof.
  intros R Ex Ey. apply reachable_strongly in R.
  pose proof (index_Ok_nth S x i R Ex) as Nx.
  pose proof (index_Ok_nth S y j R Ey) as Ny.
  split.
  - intros L. destruct (Nat.lt_trichotomy i j) as [Lt|[->|Gt]];
      [assumption| |].
    + assert (x = y) as -> by congruence.
      rewrite py_lt_irrefl in L. discriminate.
    + pose proof (ltR_asym _ _ (strongly_nth _ R j i y x Gt Ny Nx)).
      congruence.
  - intros L. exact (strongly_nth _ R i j x y L Nx Ny).
Qed.

(** ** Reverse iteration and slices *)

Lemma yield_subscripts_spec (self : SortedSet) (positions : list nat) :
  (forall i, In i positions -> i < length (_items self)) ->
  yield_subscripts self positions
  = Ok (flat_map (fun i => match nth_error (_items self) i with
                           | Some x => [Item x]
                           | None => []
                           end) positions).
Proof.
  induction positions as [|i positions IH]; intros V; [reflexivity|].
  cbn [yield_subscripts flat_map]. unfold __getitem__.
  destruct (nth_error (_items self) i) as [x|] eqn:E.
  - rewrite (list_getitem_nat _ _ _ E). cbn [bind].
    rewrite IH by (intros; apply V; now right). reflexivity.
  - apply nth_error_None in E.
    assert (i < length (_items self)) by (apply V; now left). lia.
Qed.

Lemma flat_map_rev_short {A B : Type} (f : A -> list B) (l : list A) :
  (forall a, length (f a) <= 1) ->
  flat_map f (rev l) = rev (flat_map f l).
Proof.
  intros Sh. induction l as [|a l IH]; [reflexivity|].
  simpl. rewrite flat_map_app, rev_app_distr, IH. simpl.
  rewrite app_nil_r. f_equal.
  specialize (Sh a). destruct (f a) as [|b [|c t]]; simpl in *;
    [reflexivity|reflexivity|lia].
Qed.

Lemma flat_map_nth_map {B : Type} (F : T -> B) (l : list T) :
  flat_map (fun k => match nth_error l k with
                     | Some x => [F x]
                     | None => []
                     end) (seq 0 (length l))
  = map F l.
Proof.
  transitivity
    (map F (flat_map (fun k => match nth_error l k with
                               | Some x => [x]
                               | None => []
                               end) (seq 0 (length l)))).
  - rewrite !flat_map_concat_map, concat_map, map_map. f_equal.
    apply map_ext. intros k. now destruct (nth_error l k).
  - rewrite flat_map_nth_firstn by lia. now rewrite firstn_all.
Qed.

(** X10.  Reverse iteration yields the stored elements from the last to the
    first and never raises. *)
Theorem reversed_yields_backwards (S : SortedSet) :
  __reversed__ S = Ok (map Item (rev (__iter__ S))).
Proof.
  unfold __reversed__, __len__, __iter__.
  rewrite yield_subscripts_spec.
  - f_equal. rewrite flat_map_rev_short, flat_map_nth_map, map_rev;
      [reflexivity|].
    intros k. destruct (nth_error (_items S) k); simpl; lia.
  - intros i I. apply in_rev, in_seq in I. lia.
Qed.

Lemma clamp_nonneg (n b : Z) : (0 <= clamp n b)%Z.
Proof. unfold clamp. lia. Qed.

(** X11.  [S[:]] is the whole stored sequence, and for every integer [k]
    the slices [S[:k]] and [S[k:]] put end to end give it back. *)
Theorem slices_split_sequence (S : SortedSet) (k : Z) :
  __getitem__ S (ISlice (Slice None None None)) = Ok (Items (__iter__ S)) /\
  exists l1 l2,
    __getitem__ S (ISlice (Slice None (Some k) None)) = Ok (Items l1) /\
    __getitem__ S (ISlice (Slice (Some k) None None)) = Ok (Items l2) /\
    l1 ++ l2 = __iter__ S.
Proof.
  unfold __getitem__, __iter__. rewrite !list_getslice_default_step.
  cbn [bind]. set (n := Z.of_nat (length (_items S))).
  pose proof (clamp_range n k ltac:(lia)) as C.
  split.
  - do 2 f_equal. rewrite Z.sub_0_r. unfold n. rewrite Nat2Z.id.
    simpl. apply firstn_all.
  - do 2 eexists. split; [reflexivity|]. split; [reflexivity|].
    rewrite Z.sub_0_r. simpl skipn at 1.
    rewrite (firstn_all2 (n := Z.to_nat (n - clamp n k))).
    + apply firstn_skipn.
    + rewrite length_skipn. unfold n in *. lia.
Qed.

Lemma flat_map_ext_in {A B : Type} (f g : A -> list B) (l : list A) :
  (forall a, In a l -> f a = g a) -> flat_map f l = flat_map g l.
Proof.
  intros E. rewrite !flat_map_concat_map. f_equal. now apply map_ext_in.
Qed.

(** X12.  The slice with step [-1] and default bounds, [S[::-1]], is the
    stored sequence reversed. *)
Theorem slice_negative_step_reverses (S : SortedSet) :
  __getitem__ S (ISlice (Slice None None (Some (-1)%Z)))
  = Ok (Items (rev (__iter__ S))).
Proof.
  unfold __getitem__, __iter__, list_getslice, slice_indices.
  cbn [step start stop bind Z.eqb Z.ltb Z.compare].
  do 2 f_equal. generalize (_items S). clear S. intros a.
  assert (L : slice_length (Z.of_nat (length a) - 1) (-1) (-1) = length a).
  { unfold slice_length.
    change (-1 <? 0)%Z with true. change (- -1)%Z with 1%Z. cbv iota.
    destruct (Z.ltb_spec (-1) (Z.of_nat (length a) - 1)).
    - rewrite Z.div_1_r. lia.
    - lia. }
  rewrite L. rewrite <- (firstn_all (rev a)), length_rev.
  rewrite <- flat_map_nth_firstn by (rewrite length_rev; lia).
  apply flat_map_ext_in. intros k I. apply in_seq in I.
  rewrite nth_error_rev.
  destruct (Nat.ltb_spec k (length a)); [|lia].
  now replace (Z.to_nat (Z.of_nat (length a) - 1 + Z.of_nat k * -1))
    with (length a - S k) by lia.
Qed.

Lemma strongly_firstn (n : nat) (l : list T) :
  StronglySorted ltR l -> StronglySorted ltR (firstn n l).
Proof.
  intros SS. revert n. induction SS as [|x l SS IH F]; intros [|n]; simpl;
    try constructor; [apply IH|].
  rewrite Forall_forall in *. intros z I. apply F.
  rewrite <- (firstn_skipn n l). apply in_or_app. now left.
Qed.

Lemma strongly_skipn (n : nat) (l : list T) :
  StronglySorted ltR l -> StronglySorted ltR (skipn n l).
Proof.
  intros SS. revert n. induction SS as [|x l SS IH F]; intros [|n]; simpl;
    try constructor; auto.
Qed.

(** X13.  A slice [S[start:stop]] of a SortedSet is itself strictly
    ascending, so wrapping it back into a SortedSet would store it
    unchanged. *)
Theorem slice_keeps_invariant (S : SortedSet) (b e : option Z) :
  reachable S ->
  exists l,
    __getitem__ S (ISlice (Slice b e None)) = Ok (Items l) /\
    strictly_ascending l /\
    _items (__init__ (Some l)) = l.
Proof.
  intros R. apply reachable_strongly in R.
  unfold __getitem__. rewrite list_getslice_default_step. cbn [bind].
  eexists. split; [reflexivity|].
  assert (SS : StronglySorted ltR
                 (firstn (Z.to_nat
                    (match e with
                     | Some v => clamp (Z.of_nat (length (_items S))) v
                     | None => Z.of_nat (length (_items S))
                     end -
                     match b with
                     | Some v => clamp (Z.of_nat (length (_items S))) v
                     | None => 0%Z
                     end))
                    (skipn (Z.to_nat
                       match b with
                       | Some v => clamp (Z.of_nat (length (_items S))) v
                       | None => 0%Z
                       end) (_items S))))
    by (apply strongly_firstn, strongly_skipn, R).
  split; [now apply strongly_ascending|].
  simpl. now apply sorted_set_fixpoint.
Qed.

(** ** Textual representation *)

Lemma append_assoc (a b c : String.string) :
  String.append (String.append a b) c = String.append a (String.append b c).
Proof. induction a as [|ch a IH]; simpl; [reflexivity|now rewrite IH]. Qed.

(** X14.  Only the empty SortedSet prints as [SortedSet()]; a set with
    elements prints its list between the parentheses: an opening bracket,
    the [repr] of every stored element in ascending order, separated by a
    comma and a space, and a closing bracket. *)
Theorem repr_empty_or_list (repr_item : T -> String.string) (S : SortedSet) :
  (__repr__ repr_item S = "SortedSet()"%string <-> _items S = []) /\
  (_items S <> [] ->
   __repr__ repr_item S
   = String.append "SortedSet(["%string
       (String.append
          (String.concat ", "%string (map repr_item (__iter__ S)))
          "])"%string)).
Proof.
  unfold __repr__, __iter__. destruct (_items S) as [|x l]; split.
  - split; reflexivity.
  - intros N. now contradiction N.
  - split; [|discriminate]. unfold repr_list. simpl. intros E.
    discriminate E.
  - intros _. unfold repr_list.
    set (body := String.concat ", "%string (map repr_item (x :: l))).
    cbn [String.append]. do 11 f_equal. apply append_assoc.
Qed.

(** ** Equality *)

Lemma list_eq_sym (a b : list T) : list_eq a b = list_eq b a.
Proof.
  destruct (list_eq a b) eqn:E; symmetry.
  - apply list_eq_spec in E. subst. apply list_eq_refl.
  - destruct (list_eq b a) eqn:E'; [|reflexivity].
    apply list_eq_spec in E'. subst. rewrite list_eq_refl in E.
    discriminate.
Qed.

(** X15.  [!=] is the negation of [==] for every pair of operands, though
    [__ne__] is written separately from [__eq__]; neither raises. *)
Theorem ne_negates_eq (a b : pyval) :
  exists r, op_eq a b = Ok r /\ op_ne a b = Ok (negb r).
Proof.
  destruct a, b; unfold op_eq, op_ne; simpl; eexists; split; reflexivity.
Qed.

(** X16.  [==] and [!=] do not depend on the side an operand is on. *)
Theorem eq_symmetric (a b : pyval) :
  op_eq a b = op_eq b a /\ op_ne a b = op_ne b a.
Proof.
  destruct a as [|n|l|s], b as [|m|l'|s']; unfold op_eq, op_ne; simpl;
    try (split; reflexivity).
  - now rewrite Z.eqb_sym.
  - now rewrite list_eq_sym.
  - now rewrite list_eq_sym.
Qed.

Lemma issubset_iter (s r : SortedSet) :
  StronglySorted ltR (_items r) -> issubset s (__iter__ r) = Set__le__ s r.
Proof.
  intros SS. unfold issubset, __iter__. now rewrite init_items_fixpoint.
Qed.

Lemma issuperset_iter (s r : SortedSet) :
  StronglySorted ltR (_items r) -> issuperset s (__iter__ r) = Set__ge__ s r.
Proof.
  intros SS. unfold issuperset, __iter__. now rewrite init_items_fixpoint.
Qed.

(** X17.  Two SortedSets are equal under [==] exactly when each is a subset
    of the other. *)
Theorem eq_iff_subset_and_superset (S R : SortedSet) :
  reachable S -> reachable R ->
  (op_eq (VSortedSet S) (VSortedSet R) = Ok true <->
   issubset S (__iter__ R) = Ok true /\ issuperset S (__iter__ R) = Ok true).
Proof.
  intros HS HR. apply reachable_strongly in HS, HR.
  rewrite issubset_iter, issuperset_iter by assumption.
  destruct (le_spec S R HS HR) as (b1 & E1 & S1).
  destruct (ge_spec S R HS HR) as (b2 & E2 & S2).
  rewrite E1, E2. unfold op_eq. simpl. split.
  - intros E. injection E as E. apply list_eq_spec in E.
    split; f_equal; [apply S1|apply S2]; rewrite E; apply incl_refl.
  - intros [A B]. injection A as ->. injection B as ->.
    f_equal. apply list_eq_spec. apply strongly_unique; try assumption.
    intros z. split; [now apply S1|now apply S2].
Qed.

(** ** How the set operations combine *)

Lemma named_on_iter (s r : SortedSet) :
  StronglySorted ltR (_items r) ->
  intersection s (__iter__ r) = Set__and__ s r /\
  union s (__iter__ r) = Set__or__ s r /\
  difference s (__iter__ r) = Set__sub__ s r /\
  symmetric_difference s (__iter__ r) = Set__xor__ s r.
Proof.
  intros SS.
  unfold intersection, union, difference, symmetric_difference, __iter__.
  now rewrite init_items_fixpoint.
Qed.

(** A result that satisfies I1 is pinned down by its elements. *)
Lemma result_by_elements (c : result SortedSet) (r s : SortedSet) :
  c = Ok r -> StronglySorted ltR (_items r) ->
  StronglySorted ltR (_items s) ->
  (forall z, In z (_items r) <-> In z (_items s)) -> c = Ok s.
Proof. intros -> Sr Ss E. f_equal. now apply same_elements_eq. Qed.

Lemma and_strongly (s t r : SortedSet) :
  Set__and__ s t = Ok r -> StronglySorted ltR (_items r).
Proof. apply from_constructor_strongly. Qed.

Lemma sub_strongly (s t r : SortedSet) :
  Set__sub__ s t = Ok r -> StronglySorted ltR (_items r).
Proof. apply from_constructor_strongly. Qed.

(** X18.  Concatenation is union: [S + R] is what [S.union(R)] returns. *)
Theorem add_is_union (S R : SortedSet) :
  __add__ S (VSortedSet R) = union S (__iter__ R).
Proof.
  change (__add__ S (VSortedSet R))
    with (Ok (__init__ (Some (_items S ++ _items R)))).
  unfold union, Set__or__, _from_iterable, __iter__. f_equal.
  apply init_ext. intros z.
  rewrite !in_app_iff, (In_init (_items R) z). reflexivity.
Qed.

(** X19.  A set against itself: union, intersection and concatenation give
    the set back, difference and symmetric difference give the empty
    set. *)
Theorem operations_with_itself (S : SortedSet) :
  reachable S ->
  union S (__iter__ S) = Ok S /\
  intersection S (__iter__ S) = Ok S /\
  __add__ S (VSortedSet S) = Ok S /\
  difference S (__iter__ S) = Ok (__init__ None) /\
  symmetric_difference S (__iter__ S) = Ok (__init__ None).
Proof.
  intros R. apply reachable_strongly in R.
  destruct (named_on_iter S S R) as (-> & -> & -> & ->).
  pose proof (init_strongly None) as SE.
  destruct (or_spec S S) as (u & Eu & Su).
  destruct (and_spec S S R) as (i & Ei & Si).
  destruct (sub_spec S S R) as (d & Ed & Sd).
  destruct (xor_spec S S R R) as (x & Ex & Sx).
  split; [|split; [|split; [|split]]].
  - apply (result_by_elements _ u); auto.
    + eapply or_strongly; eassumption.
    + intros z. rewrite Su. tauto.
  - apply (result_by_elements _ i); auto.
    + eapply and_strongly; eassumption.
    + intros z. rewrite Si. tauto.
  - simpl. f_equal. rewrite <- (init_items_fixpoint S R) at 3.
    apply init_ext. intros z. rewrite in_app_iff. tauto.
  - apply (result_by_elements _ d); auto.
    + eapply sub_strongly; eassumption.
    + intros z. rewrite Sd. simpl. tauto.
  - apply (result_by_elements _ x); auto.
    + eapply xor_strongly; eassumption.
    + intros z. rewrite Sx. simpl. tauto.
Qed.

(** X20.  An empty iterable as the other operand: union, difference and
    symmetric difference return the set itself, intersection the empty
    set; the set is disjoint from it and a superset of it, and a subset of
    it only when the set is empty too. *)
Theorem operations_with_empty (S : SortedSet) :
  reachable S ->
  union S [] = Ok S /\
  difference S [] = Ok S /\
  symmetric_difference S [] = Ok S /\
  intersection S [] = Ok (__init__ None) /\
  isdisjoint S [] = Ok true /\
  issuperset S [] = Ok true /\
  (issubset S [] = Ok true <-> _items S = []).
Proof.
  intros R. apply reachable_strongly in R.
  pose proof (init_strongly None) as SE.
  change (__init__ (Some [])) with (__init__ None) in *.
  unfold union, difference, symmetric_difference, intersection, issuperset,
    issubset.
  change (__init__ (Some [])) with (__init__ None).
  destruct (or_spec S (__init__ None)) as (u & Eu & Su).
  destruct (and_spec S (__init__ None) R) as (i & Ei & Si).
  destruct (sub_spec S (__init__ None) SE) as (d & Ed & Sd).
  destruct (xor_spec S (__init__ None) R SE) as (x & Ex & Sx).
  destruct (ge_spec S (__init__ None) R SE) as (g & Eg & Sg).
  destruct (le_spec S (__init__ None) R SE) as (l & El & Sl).
  split; [|split; [|split; [|split; [|split; [|split]]]]].
  - apply (result_by_elements _ u); auto.
    + eapply or_strongly; eassumption.
    + intros z. rewrite Su. simpl. tauto.
  - apply (result_by_elements _ d); auto.
    + eapply sub_strongly; eassumption.
    + intros z. rewrite Sd. simpl. tauto.
  - apply (result_by_elements _ x); auto.
    + eapply xor_strongly; eassumption.
    + intros z. rewrite Sx. simpl. tauto.
  - apply (result_by_elements _ i); auto.
    + eapply and_strongly; eassumption.
    + intros z. rewrite Si. simpl. tauto.
  - reflexivity.
  - rewrite Eg. f_equal. apply Sg. intros z [].
  - rewrite El. split.
    + intros E. injection E as ->.
      destruct (_items S) as [|a t] eqn:Q; [reflexivity|].
      exfalso. apply (proj1 Sl eq_refl a). now left.
    + intros Q. f_equal. apply Sl. rewrite Q. intros z [].
Qed.

(** X21.  The union contains both operands and the intersection is
    contained in both: [S.union(o)] is a superset of [S] and of [o],
    [S.intersection(o)] a subset of [S] and of [o]. *)
Theorem union_above_intersection_below (S : SortedSet) (other : list T) :
  reachable S ->
  exists U I,
    union S other = Ok U /\ intersection S other = Ok I /\
    issuperset U (__iter__ S) = Ok true /\ issuperset U other = Ok true /\
    issubset I (__iter__ S) = Ok true /\ issubset I other = Ok true.
Proof.
  intros R. apply reachable_strongly in R.
  pose proof (init_strongly (Some other)) as SO.
  destruct (or_spec S (__init__ (Some other))) as (u & Eu & Su).
  destruct (and_spec S (__init__ (Some other)) R) as (i & Ei & Si).
  pose proof (or_strongly _ _ _ Eu) as SU.
  pose proof (and_strongly _ _ _ Ei) as SI.
  exists u, i. split; [exact Eu|]. split; [exact Ei|].
  rewrite issuperset_iter, issubset_iter by assumption.
  unfold issuperset, issubset.
  destruct (ge_spec u S SU R) as (g1 & -> & G1).
  destruct (ge_spec u (__init__ (Some other)) SU SO) as (g2 & -> & G2).
  destruct (le_spec i S SI R) as (l1 & -> & L1).
  destruct (le_spec i (__init__ (Some other)) SI SO) as (l2 & -> & L2).
  repeat split; f_equal.
  - apply G1. intros z Iz. apply Su. now left.
  - apply G2. intros z Iz. apply Su. now right.
  - apply L1. intros z Iz. now apply Si.
  - apply L2. intros z Iz. now apply Si.
Qed.

(** X22.  Union, intersection and symmetric difference of two SortedSets do
    not depend on which of them is the receiver. *)
Theorem set_operations_commute (S R : SortedSet) :
  reachable S -> reachable R ->
  union S (__iter__ R) = union R (__iter__ S) /\
  intersection S (__iter__ R) = intersection R (__iter__ S) /\
  symmetric_difference S (__iter__ R) = symmetric_difference R (__iter__ S).
Proof.
  intros HS HR. apply reachable_strongly in HS, HR.
  destruct (named_on_iter S R HR) as (-> & -> & _ & ->).
  destruct (named_on_iter R S HS) as (-> & -> & _ & ->).
  destruct (or_spec S R) as (u & Eu & Su).
  destruct (or_spec R S) as (u' & Eu' & Su').
  destruct (and_spec S R HS) as (i & Ei & Si).
  destruct (and_spec R S HR) as (i' & Ei' & Si').
  destruct (xor_spec S R HS HR) as (x & Ex & Sx).
  destruct (xor_spec R S HR HS) as (x' & Ex' & Sx').
  split; [|split].
  - rewrite Eu'. apply (result_by_elements _ u); auto.
    + eapply or_strongly; eassumption.
    + eapply or_strongly; eassumption.
    + intros z. rewrite Su, Su'. tauto.
  - rewrite Ei'. apply (result_by_elements _ i); auto.
    + eapply and_strongly; eassumption.
    + eapply and_strongly; eassumption.
    + intros z. rewrite Si, Si'. tauto.
  - rewrite Ex'. apply (result_by_elements _ x); auto.
    + eapply xor_strongly; eassumption.
    + eapply xor_strongly; eassumption.
    + intros z. rewrite Sx, Sx'. tauto.
Qed.

Lemma strongly_filter (f : T -> bool) (l : list T) :
  StronglySorted ltR l -> StronglySorted ltR (filter f l).
Proof.
  induction 1 as [|x l SS IH F]; simpl; [constructor|].
  destruct (f x); [|assumption]. constructor; [assumption|].
  rewrite Forall_forall in *. intros z I. apply F.
  now apply filter_In in I.
Qed.

Lemma In_existsb (x : T) (l : list T) :
  existsb (py_eq x) l = true <-> In x l.
Proof.
  rewrite existsb_exists. split.
  - intros (y & I & E). apply py_eq_spec in E. now subst.
  - intros I. exists x. split; [assumption|apply py_eq_refl].
Qed.

(** X23.  Difference and intersection split a set: the lengths of
    [S.difference(o)] and [S.intersection(o)] add up to the length of
    [S]. *)
Theorem difference_intersection_split (S : SortedSet) (other : list T) :
  reachable S ->
  exists D I,
    difference S other = Ok D /\ intersection S other = Ok I /\
    __len__ D + __len__ I = __len__ S.
Proof.
  intros R. apply reachable_strongly in R.
  pose proof (init_strongly (Some other)) as SO.
  destruct (sub_spec S (__init__ (Some other)) SO) as (d & Ed & Sd).
  destruct (and_spec S (__init__ (Some other)) R) as (i & Ei & Si).
  exists d, i. split; [exact Ed|]. split; [exact Ei|].
  set (f := fun z => existsb (py_eq z) other).
  assert (Fd : _items d = filter (fun z => negb (f z)) (_items S)).
  { apply strongly_unique.
    - eapply sub_strongly; eassumption.
    - now apply strongly_filter.
    - intros z. rewrite Sd, filter_In, In_init, negb_true_iff.
      unfold f. rewrite <- (In_existsb z other).
      destruct (existsb (py_eq z) other); split; intros [A B];
        split; try assumption; try discriminate; try reflexivity.
      exfalso. now apply B. }
  assert (Fi : _items i = filter f (_items S)).
  { apply strongly_unique.
    - eapply and_strongly; eassumption.
    - now apply strongly_filter.
    - intros z. rewrite Si, filter_In, In_init.
      unfold f. now rewrite (In_existsb z other). }
  unfold __len__. rewrite Fd, Fi, Nat.add_comm. apply filter_length.
Qed.

(** X24.  The symmetric difference is the union without the
    intersection. *)
Theorem symmetric_difference_by_union (S : SortedSet) (other : list T) :
  reachable S ->
  exists U I,
    union S other = Ok U /\ intersection S other = Ok I /\
    symmetric_difference S other = difference U (__iter__ I).
Proof.
  intros R. apply reachable_strongly in R.
  pose proof (init_strongly (Some other)) as SO.
  destruct (or_spec S (__init__ (Some other))) as (u & Eu & Su).
  destruct (and_spec S (__init__ (Some other)) R) as (i & Ei & Si).
  destruct (xor_spec S (__init__ (Some other)) R SO) as (x & Ex & Sx).
  pose proof (and_strongly _ _ _ Ei) as SI.
  exists u, i. split; [exact Eu|]. split; [exact Ei|].
  destruct (named_on_iter u i SI) as (_ & _ & -> & _).
  destruct (sub_spec u i SI) as (d & Ed & Sd).
  unfold symmetric_difference. rewrite Ed.
  apply (result_by_elements _ x); auto.
  - eapply xor_strongly; eassumption.
  - eapply sub_strongly; eassumption.
  - intros z. rewrite Sx, Sd, Su, Si. tauto.
Qed.

(** X25.  The subset relation orders the SortedSets: sets that are subsets
    of each other are the same set, and a subset of a subset is a
    subset. *)
Theorem subset_antisymmetric_transitive (S R : SortedSet) :
  reachable S -> reachable R ->
  (issubset S (__iter__ R) = Ok true -> issubset R (__iter__ S) = Ok true ->
   S = R) /\
  (forall other,
     issubset S (__iter__ R) = Ok true -> issubset R other = Ok true ->
     issubset S other = Ok true).
Proof.
  intros HS HR. apply reachable_strongly in HS, HR.
  rewrite !issubset_iter by assumption.
  destruct (le_spec S R HS HR) as (b1 & E1 & S1).
  destruct (le_spec R S HR HS) as (b2 & E2 & S2).
  rewrite E1, E2. split.
  - intros A B. injection A as ->. injection B as ->.
    apply same_elements_eq; try assumption.
    intros z. split; [now apply S1|now apply S2].
  - intros other A B. injection A as ->. unfold issubset in *.
    pose proof (init_strongly (Some other)) as SO.
    destruct (le_spec R (__init__ (Some other)) HR SO) as (b3 & E3 & S3).
    destruct (le_spec S (__init__ (Some other)) HS SO) as (b4 & E4 & S4).
    rewrite E3 in B. injection B as ->. rewrite E4. f_equal.
    apply S4. eapply incl_tran; [now apply S1|now apply S3].
Qed.

(** X26.  Disjointness of two SortedSets does not depend on which of them
    is asked. *)
Theorem isdisjoint_symmetric (S R : SortedSet) :
  reachable S -> reachable R ->
  isdisjoint S (__iter__ R) = isdisjoint R (__iter__ S).
Proof.
  intros HS HR. apply reachable_strongly in HS, HR.
  destruct (isdisjoint_spec S (__iter__ R) HS) as (b1 & -> & S1).
  destruct (isdisjoint_spec R (__iter__ S) HR) as (b2 & -> & S2).
  f_equal. unfold __iter__ in *.
  destruct b1, b2; try reflexivity.
  - symmetry. apply S2. intros v Iv Ir.
    exact (proj1 S1 eq_refl v Ir Iv).
  - apply S1. intros v Iv Is.
    exact (proj1 S2 eq_refl v Is Iv).
Qed.

(** X27.  Repetition is repeated concatenation: [S * n] is what adding [S]
    to the empty SortedSet [n] times gives (no times at all when [n] is
    not positive). *)
Theorem mul_is_repeated_add (S : SortedSet) (n : Z) :
  reachable S -> __mul__ S (VInt n) = add_times S (Z.to_nat n).
Proof.
  intros R. apply reachable_strongly in R.
  assert (One : __add__ (__init__ None) (VSortedSet S) = Ok S).
  { simpl. f_equal. now apply init_items_fixpoint. }
  assert (Two : __add__ S (VSortedSet S) = Ok S).
  { simpl. f_equal. rewrite <- (init_items_fixpoint S R) at 3.
    apply init_ext. intros z. rewrite in_app_iff. tauto. }
  assert (Pos : forall k, add_times S (Datatypes.S k) = Ok S).
  { induction k as [|k IH].
    - exact One.
    - change (add_times S (Datatypes.S (Datatypes.S k)))
        with (acc <- add_times S (Datatypes.S k) ;;
              __add__ acc (VSortedSet S)).
      rewrite IH. exact Two. }
  simpl. destruct (Z.ltb_spec 0 n) as [L|L].
  - destruct (Z.to_nat n) as [|k] eqn:Q.
    + exfalso. clear - L Q. lia.
    + now rewrite Pos.
  - replace (Z.to_nat n) with 0; [reflexivity|]. clear - L. lia.
Qed.

End SortedSet.



(** * The test suite's scenarios, on Python integers *)

Open Scope Z_scope.

Example test_from_sequence :
  __iter__ (__init__ (Some [7; 8; 3; 14; 21; 35])) = [3; 7; 8; 14; 21; 35].
Proof. reflexivity. Qed.

Example test_with_duplicates :
  __len__ (__init__ (Some [8; 8; 8])) = 1%nat /\
  __contains__ (__init__ (Some [8; 8; 8])) 8 = Ok true.
Proof. split; reflexivity. Qed.

Example test_index_positive : index (__init__ (Some [1; 5; 8; 9])) 8 = Ok 2%nat.
Proof. reflexivity. Qed.

Example test_index_negative :
  index (__init__ (Some [1; 5; 8; 9])) 15 = Raise ValueError.
Proof. reflexivity. Qed.

Example test_count :
  count (__init__ (Some [1; 5; 7; 9])) 11 = Ok 0 /\
  count (__init__ (Some [1; 5; 7; 9])) 7 = Ok 1.
Proof. split; reflexivity. Qed.

Example test_index_minus_one :
  __getitem__ (__init__ (Some [1; 4; 9; 13; 15])) (IInt (-1)) = Ok (Item 15).
Proof. reflexivity. Qed.

Example test_index_beyond_the_end :
  __getitem__ (__init__ (Some [1; 4; 9; 13; 15])) (IInt 5) = Raise IndexError /\
  __getitem__ (__init__ (Some [1; 4; 9; 13; 15])) (IInt (-6))
  = Raise IndexError.
Proof. split; reflexivity. Qed.

Example test_slices :
  let s := __init__ (Some [1; 4; 9; 13; 15]) in
  __getitem__ s (ISlice (Slice None (Some 3) None)) = Ok (Items [1; 4; 9]) /\
  __getitem__ s (ISlice (Slice (Some 3) None None)) = Ok (Items [13; 15]) /\
  __getitem__ s (ISlice (Slice (Some 10) None None)) = Ok (Items []) /\
  __getitem__ s (ISlice (Slice (Some 2) (Some 4) None)) = Ok (Items [9; 13]) /\
  __getitem__ s (ISlice (Slice None None (Some (-2)))) = Ok (Items [15; 9; 1]).
Proof. repeat split; reflexivity. Qed.

Example test_concatenate_intersecting :
  op_add (VSortedSet (__init__ (Some [1; 2; 3])))
         (VSortedSet (__init__ (Some [3; 4; 5])))
  = Ok (VSortedSet (__init__ (Some [1; 2; 3; 4; 5]))).
Proof. reflexivity. Qed.

Example test_repetition :
  op_mul (VSortedSet (__init__ (Some [4; 5; 6]))) (VInt 0)
  = Ok (VSortedSet (__init__ None)) /\
  op_mul (VInt 100) (VSortedSet (__init__ (Some [4; 5; 6])))
  = Ok (VSortedSet (__init__ (Some [4; 5; 6]))).
Proof. split; reflexivity. Qed.

Example test_type_mismatch :
  op_eq (VSortedSet (__init__ (Some [4; 5; 6]))) (VList [4; 5; 6]) = Ok false /\
  op_ne (VSortedSet (__init__ (Some [1; 2; 3]))) (VList [1; 2; 3]) = Ok true.
Proof. split; reflexivity. Qed.

Example test_relational :
  Set__lt__ (__init__ (Some [1; 2])) (__init__ (Some [1; 2; 3])) = Ok true /\
  Set__lt__ (__init__ (Some [1; 2; 3])) (__init__ (Some [1; 2; 3])) = Ok false /\
  Set__le__ (__init__ (Some [1; 2; 3])) (__init__ (Some [1; 2; 3])) = Ok true /\
  Set__gt__ (__init__ (Some [1; 2; 3])) (__init__ (Some [1; 2])) = Ok true /\
  Set__ge__ (__init__ (Some [1; 2])) (__init__ (Some [1; 2; 3])) = Ok false /\
  issubset (__init__ (Some [1; 2; 3])) [1; 2] = Ok false /\
  issuperset (__init__ (Some [1; 2; 3])) [1; 2] = Ok true.
Proof. repeat split; reflexivity. Qed.

Example test_set_operations :
  let s := __init__ (Some [1; 2; 3]) in
  intersection s [2; 3; 4] = Ok (__init__ (Some [2; 3])) /\
  union s [2; 3; 4] = Ok (__init__ (Some [1; 2; 3; 4])) /\
  symmetric_difference s [2; 3; 4] = Ok (__init__ (Some [1; 4])) /\
  difference s [2; 3; 4] = Ok (__init__ (Some [1])) /\
  isdisjoint s [4; 5; 6] = Ok true /\
  isdisjoint s [3; 4; 5] = Ok false.
Proof. repeat split; reflexivity. Qed.

(** The assertion of [index] fires on a sequence that is not ascending; no
    such SortedSet comes out of the class. *)
Example index_asserts_invariant :
  index {| _items := [3; 1] |} 3 = Raise AssertionError.
Proof. reflexivity. Qed.

(** * Instances of the conditional theorems, on Python integers *)

(** The union of [{1, 2, 3}] with the list [[2, 3, 4]] is a SortedSet a
    client can obtain, and satisfies I1. *)
Lemma reachable_strictly_ascending_witness :
  reachable (__init__ (Some [1; 2; 3; 4])) /\
  (strictly_ascending (_items (__init__ (Some [1; 2; 3; 4]))) /\
   NoDup (_items (__init__ (Some [1; 2; 3; 4]))) /\
   _is_unique_and_sorted (__init__ (Some [1; 2; 3; 4])) = Ok true).
Proof.
  assert (R : reachable (__init__ (Some [1; 2; 3; 4]))).
  { apply (R_union (__init__ (Some [3; 2; 1])) [2; 3; 4]);
      [apply R_init|reflexivity]. }
  split; [exact R|].
  exact (reachable_strictly_ascending (__init__ (Some [1; 2; 3; 4])) R).
Defined.

(** [index], [in] and [count] for 8 in [SortedSet([1, 5, 8, 9])]. *)
Lemma index_contains_count_spec_witness :
  reachable (__init__ (Some [1; 5; 8; 9])) /\
  ((forall i, index (__init__ (Some [1; 5; 8; 9])) 8 = Ok i <->
              nth_error (_items (__init__ (Some [1; 5; 8; 9]))) i = Some 8) /\
   (index (__init__ (Some [1; 5; 8; 9])) 8 = Raise ValueError <->
    ~ In 8 (_items (__init__ (Some [1; 5; 8; 9])))) /\
   ((In 8 (_items (__init__ (Some [1; 5; 8; 9]))) /\
     __contains__ (__init__ (Some [1; 5; 8; 9])) 8 = Ok true) \/
    (~ In 8 (_items (__init__ (Some [1; 5; 8; 9]))) /\
     __contains__ (__init__ (Some [1; 5; 8; 9])) 8 = Ok false)) /\
   ((In 8 (_items (__init__ (Some [1; 5; 8; 9]))) /\
     count (__init__ (Some [1; 5; 8; 9])) 8 = Ok 1) \/
    (~ In 8 (_items (__init__ (Some [1; 5; 8; 9]))) /\
     count (__init__ (Some [1; 5; 8; 9])) 8 = Ok 0))).
Proof.
  split; [apply R_init|].
  exact (index_contains_count_spec (__init__ (Some [1; 5; 8; 9])) 8
           (R_init (Some [1; 5; 8; 9]))).
Defined.

(** The set methods of [SortedSet({1, 2, 3})] against [[2, 3, 4]], at 4. *)
Lemma set_algebra_membership_witness :
  reachable (__init__ (Some [1; 2; 3])) /\
  exists U I D X,
    union (__init__ (Some [1; 2; 3])) [2; 3; 4] = Ok U /\
    intersection (__init__ (Some [1; 2; 3])) [2; 3; 4] = Ok I /\
    difference (__init__ (Some [1; 2; 3])) [2; 3; 4] = Ok D /\
    symmetric_difference (__init__ (Some [1; 2; 3])) [2; 3; 4] = Ok X /\
    __contains__ U 4 = Ok true /\ __contains__ X 4 = Ok true /\
    (__contains__ I 4 = Ok true <->
     __contains__ (__init__ (Some [1; 2; 3])) 4 = Ok true /\ In 4 [2; 3; 4]) /\
    (__contains__ D 4 = Ok true <->
     __contains__ (__init__ (Some [1; 2; 3])) 4 = Ok true /\ ~ In 4 [2; 3; 4]).
Proof.
  split; [apply R_init|].
  destruct (set_algebra_membership (__init__ (Some [1; 2; 3])) [2; 3; 4] 4
              (R_init (Some [1; 2; 3])))
    as ((U & EU & SU) & (I & EI & SI) & (D & ED & SD) & (X & EX & SX) & _).
  exists U, I, D, X. repeat (split; [assumption|]).
  split; [|split; [|split; assumption]].
  - apply SU. right. simpl. tauto.
  - apply SX. right. split; [reflexivity|simpl; tauto].
Defined.

(** [{1, 2}] against [[1, 2, 3]] and against [SortedSet({1, 2, 3})]. *)
Lemma subset_superset_spec_witness :
  reachable (__init__ (Some [1; 2])) /\
  reachable (__init__ (Some [1; 2; 3])) /\
  issubset (__init__ (Some [1; 2])) [1; 2; 3] = Ok true /\
  exists lt le ne,
    Set__lt__ (__init__ (Some [1; 2])) (__init__ (Some [1; 2; 3])) = Ok lt /\
    Set__le__ (__init__ (Some [1; 2])) (__init__ (Some [1; 2; 3])) = Ok le /\
    op_ne (VSortedSet (__init__ (Some [1; 2])))
          (VSortedSet (__init__ (Some [1; 2; 3]))) = Ok ne /\
    lt = le && ne.
Proof.
  split; [apply R_init|]. split; [apply R_init|].
  destruct (subset_superset_spec (__init__ (Some [1; 2])) [1; 2; 3]
              (R_init (Some [1; 2])))
    as ((b & E & Sb) & _ & _ & _ & L & _).
  split.
  - rewrite E. f_equal. apply Sb. simpl. tauto.
  - exact (L (__init__ (Some [1; 2; 3])) (R_init (Some [1; 2; 3]))).
Defined.

(** * Concatenation with a plain list *)

(** [SortedSet([1, 2, 3]) + [3, 4, 5]] does not produce a SortedSet: reading
    [rhs._items] on the list raises [AttributeError]. *)
Lemma add_plain_list_raises :
  op_add (VSortedSet (__init__ (Some [1; 2; 3]))) (VList [3; 4; 5])
  = Raise AttributeError /\
  ~ exists r,
      op_add (VSortedSet (__init__ (Some [1; 2; 3]))) (VList [3; 4; 5])
      = Ok (VSortedSet r) /\
      forall x, In x (_items r) <-> In x [1; 2; 3] \/ In x [3; 4; 5].
Proof.
  split; [reflexivity|]. intros (r & E & _). discriminate E.
Qed.

(** * Comparison with an operand that answers for itself *)


(** * Further scenarios of the test suite *)

Example test_repr :
  let repr_int z := DecimalString.NilZero.string_of_int (Z.to_int z) in
  __repr__ repr_int (__init__ (Some [42; 40; 19]))
  = "SortedSet([19, 40, 42])"%string /\
  __repr__ repr_int (__init__ None) = "SortedSet()"%string.
Proof. split; reflexivity. Qed.

Example test_reversed :
  __reversed__ (__init__ (Some [1; 3; 5; 7]))
  = Ok [Item 7; Item 5; Item 3; Item 1].
Proof. reflexivity. Qed.

Example test_concatenate_equal :
  __add__ (__init__ (Some [2; 4; 6])) (VSortedSet (__init__ (Some [2; 4; 6])))
  = Ok (__init__ (Some [2; 4; 6])).
Proof. reflexivity. Qed.

(** * Instances of the further conditional theorems *)

Lemma init_from_iteration_roundtrip_witness :
  reachable (__init__ (Some [7; 2; 3; 1; 1; 9])) /\
  __init__ (Some (__iter__ (__init__ (Some [7; 2; 3; 1; 1; 9]))))
  = __init__ (Some [7; 2; 3; 1; 1; 9]).
Proof.
  split; [apply R_init|].
  exact (init_from_iteration_roundtrip _ (R_init (Some [7; 2; 3; 1; 1; 9]))).
Defined.

Lemma init_ignores_order_and_duplicates_witness :
  (forall z, In z [3; 1; 3; 2] <-> In z [1; 2; 3]) /\
  __init__ (Some [3; 1; 3; 2]) = __init__ (Some [1; 2; 3]).
Proof.
  assert (E : forall z, In z [3; 1; 3; 2] <-> In z [1; 2; 3])
    by (intros z; simpl; tauto).
  split; [exact E|].
  exact (init_ignores_order_and_duplicates [3; 1; 3; 2] [1; 2; 3] E).
Defined.

Lemma index_is_rank_witness :
  reachable (__init__ (Some [1; 5; 8; 9])) /\
  index (__init__ (Some [1; 5; 8; 9])) 8 = Ok 2%nat /\
  2%nat = length (filter (fun y => py_lt y 8)
                         (_items (__init__ (Some [1; 5; 8; 9])))).
Proof.
  split; [apply R_init|]. split; [reflexivity|].
  exact (index_is_rank (__init__ (Some [1; 5; 8; 9])) 8 2
           (R_init (Some [1; 5; 8; 9])) eq_refl).
Defined.

Lemma getitem_index_roundtrip_witness :
  reachable (__init__ (Some [1; 4; 9; 13; 15])) /\
  (exists i, index (__init__ (Some [1; 4; 9; 13; 15])) 15 = Ok i /\
     (Z.of_nat i = -1 \/
      Z.of_nat i = -1 + Z.of_nat (__len__ (__init__ (Some [1; 4; 9; 13; 15]))))) /\
  __getitem__ (__init__ (Some [1; 4; 9; 13; 15])) (IInt (Z.of_nat 2))
  = Ok (Item 9).
Proof.
  split; [apply R_init|].
  destruct (getitem_index_roundtrip (__init__ (Some [1; 4; 9; 13; 15]))
              (R_init (Some [1; 4; 9; 13; 15]))) as [A B].
  split; [exact (A (-1) 15 eq_refl)|exact (B 9 2%nat eq_refl)].
Defined.

Lemma index_order_preserving_witness :
  reachable (__init__ (Some [1; 5; 8; 9])) /\
  index (__init__ (Some [1; 5; 8; 9])) 5 = Ok 1%nat /\
  index (__init__ (Some [1; 5; 8; 9])) 9 = Ok 3%nat /\
  (py_lt 5 9 = true <-> (1 < 3)%nat).
Proof.
  split; [apply R_init|]. split; [reflexivity|]. split; [reflexivity|].
  exact (index_order_preserving (__init__ (Some [1; 5; 8; 9])) 5 9 1 3
           (R_init (Some [1; 5; 8; 9])) eq_refl eq_refl).
Defined.

Lemma slice_keeps_invariant_witness :
  reachable (__init__ (Some [1; 4; 9; 13; 15])) /\
  exists l,
    __getitem__ (__init__ (Some [1; 4; 9; 13; 15]))
                (ISlice (Slice (Some 2) (Some 4) None)) = Ok (Items l) /\
    strictly_ascending l /\ _items (__init__ (Some l)) = l.
Proof.
  split; [apply R_init|].
  exact (slice_keeps_invariant (__init__ (Some [1; 4; 9; 13; 15]))
           (Some 2) (Some 4) (R_init (Some [1; 4; 9; 13; 15]))).
Defined.

Lemma eq_iff_subset_and_superset_witness :
  reachable (__init__ (Some [4; 5; 6])) /\
  reachable (__init__ (Some [6; 5; 4])) /\
  (op_eq (VSortedSet (__init__ (Some [4; 5; 6])))
         (VSortedSet (__init__ (Some [6; 5; 4]))) = Ok true <->
   issubset (__init__ (Some [4; 5; 6]))
            (__iter__ (__init__ (Some [6; 5; 4]))) = Ok true /\
   issuperset (__init__ (Some [4; 5; 6]))
              (__iter__ (__init__ (Some [6; 5; 4]))) = Ok true).
Proof.
  split; [apply R_init|]. split; [apply R_init|].
  exact (eq_iff_subset_and_superset _ _
           (R_init (Some [4; 5; 6])) (R_init (Some [6; 5; 4]))).
Defined.

Lemma operations_with_itself_witness :
  reachable (__init__ (Some [2; 4; 6])) /\
  union (__init__ (Some [2; 4; 6])) (__iter__ (__init__ (Some [2; 4; 6])))
  = Ok (__init__ (Some [2; 4; 6])) /\
  difference (__init__ (Some [2; 4; 6]))
             (__iter__ (__init__ (Some [2; 4; 6])))
  = Ok (__init__ None).
Proof.
  split; [apply R_init|].
  destruct (operations_with_itself _ (R_init (Some [2; 4; 6])))
    as (U & _ & _ & D & _).
  split; [exact U|exact D].
Defined.

Lemma operations_with_empty_witness :
  reachable (__init__ (Some [2; 4; 6])) /\
  union (__init__ (Some [2; 4; 6])) [] = Ok (__init__ (Some [2; 4; 6])) /\
  intersection (__init__ (Some [2; 4; 6])) [] = Ok (__init__ None).
Proof.
  split; [apply R_init|].
  destruct (operations_with_empty _ (R_init (Some [2; 4; 6])))
    as (U & _ & _ & I & _).
  split; [exact U|exact I].
Defined.

Lemma union_above_intersection_below_witness :
  reachable (__init__ (Some [1; 2; 3])) /\
  exists U I,
    union (__init__ (Some [1; 2; 3])) [2; 3; 4] = Ok U /\
    intersection (__init__ (Some [1; 2; 3])) [2; 3; 4] = Ok I /\
    issuperset U (__iter__ (__init__ (Some [1; 2; 3]))) = Ok true /\
    issuperset U [2; 3; 4] = Ok true /\
    issubset I (__iter__ (__init__ (Some [1; 2; 3]))) = Ok true /\
    issubset I [2; 3; 4] = Ok true.
Proof.
  split; [apply R_init|].
  exact (union_above_intersection_below _ [2; 3; 4]
           (R_init (Some [1; 2; 3]))).
Defined.

Lemma set_operations_commute_witness :
  reachable (__init__ (Some [1; 2; 3])) /\
  reachable (__init__ (Some [2; 3; 4])) /\
  union (__init__ (Some [1; 2; 3])) (__iter__ (__init__ (Some [2; 3; 4])))
  = union (__init__ (Some [2; 3; 4])) (__iter__ (__init__ (Some [1; 2; 3]))) /\
  intersection (__init__ (Some [1; 2; 3]))
               (__iter__ (__init__ (Some [2; 3; 4])))
  = intersection (__init__ (Some [2; 3; 4]))
                 (__iter__ (__init__ (Some [1; 2; 3]))) /\
  symmetric_difference (__init__ (Some [1; 2; 3]))
                       (__iter__ (__init__ (Some [2; 3; 4])))
  = symmetric_difference (__init__ (Some [2; 3; 4]))
                         (__iter__ (__init__ (Some [1; 2; 3]))).
Proof.
  split; [apply R_init|]. split; [apply R_init|].
  exact (set_operations_commute _ _
           (R_init (Some [1; 2; 3])) (R_init (Some [2; 3; 4]))).
Defined.

Lemma difference_intersection_split_witness :
  reachable (__init__ (Some [1; 2; 3])) /\
  exists D I,
    difference (__init__ (Some [1; 2; 3])) [2; 3; 4] = Ok D /\
    intersection (__init__ (Some [1; 2; 3])) [2; 3; 4] = Ok I /\
    (__len__ D + __len__ I)%nat = __len__ (__init__ (Some [1; 2; 3])).
Proof.
  split; [apply R_init|].
  exact (difference_intersection_split _ [2; 3; 4]
           (R_init (Some [1; 2; 3]))).
Defined.

Lemma symmetric_difference_by_union_witness :
  reachable (__init__ (Some [1; 2; 3])) /\
  exists U I,
    union (__init__ (Some [1; 2; 3])) [2; 3; 4] = Ok U /\
    intersection (__init__ (Some [1; 2; 3])) [2; 3; 4] = Ok I /\
    symmetric_difference (__init__ (Some [1; 2; 3])) [2; 3; 4]
    = difference U (__iter__ I).
Proof.
  split; [apply R_init|].
  exact (symmetric_difference_by_union _ [2; 3; 4]
           (R_init (Some [1; 2; 3]))).
Defined.

Lemma subset_antisymmetric_transitive_witness :
  reachable (__init__ (Some [1; 2])) /\
  reachable (__init__ (Some [1; 2; 3])) /\
  issubset (__init__ (Some [1; 2])) (__iter__ (__init__ (Some [1; 2; 3])))
  = Ok true /\
  issubset (__init__ (Some [1; 2; 3])) [3; 2; 1; 0] = Ok true /\
  issubset (__init__ (Some [1; 2])) [3; 2; 1; 0] = Ok true.
Proof.
  split; [apply R_init|]. split; [apply R_init|].
  split; [reflexivity|]. split; [reflexivity|].
  destruct (subset_antisymmetric_transitive _ _
              (R_init (Some [1; 2])) (R_init (Some [1; 2; 3]))) as [_ Tr].
  exact (Tr [3; 2; 1; 0] eq_refl eq_refl).
Defined.

Lemma isdisjoint_symmetric_witness :
  reachable (__init__ (Some [1; 2; 3])) /\
  reachable (__init__ (Some [3; 4; 5])) /\
  isdisjoint (__init__ (Some [1; 2; 3])) (__iter__ (__init__ (Some [3; 4; 5])))
  = isdisjoint (__init__ (Some [3; 4; 5]))
               (__iter__ (__init__ (Some [1; 2; 3]))).
Proof.
  split; [apply R_init|]. split; [apply R_init|].
  exact (isdisjoint_symmetric _ _
           (R_init (Some [1; 2; 3])) (R_init (Some [3; 4; 5]))).
Defined.

Lemma mul_is_repeated_add_witness :
  reachable (__init__ (Some [4; 5; 6])) /\
  __mul__ (__init__ (Some [4; 5; 6])) (VInt 100)
  = add_times (__init__ (Some [4; 5; 6])) (Z.to_nat 100).
Proof.
  split; [apply R_init|].
  exact (mul_is_repeated_add _ 100 (R_init (Some [4; 5; 6]))).
Defined.
